(** * example-drf-library: the request handlers of [api/views.py]

    A shallow embedding of the book-tracking REST backend.  The database is
    an explicit state (one list of rows per table), the handlers of
    [api/views.py] are computations in a small state-and-exception monad,
    and the serializers of [api/serializers.py] build the JSON values the
    responses carry.

    The handlers are embedded at the level of the view methods.  Every view
    whose methods read [request.user] declares [IsAuthenticated], so the
    methods run with an authenticated user; [request.user] is that user's
    primary key.  The permission classes themselves live in
    [custom_permissions.py] and in the framework and are not part of this
    development.

    What the sources leave to the framework, to the database engine or to
    files outside [api/views.py], [api/serializers.py] and migration 0004
    is a parameter of the section [Views]: URL reversing, the collation
    behind [order_by], full-text search, field validation, the object
    permissions of the detail routes, and the [UPPER] of the engine, which
    depends on the encoding and the locale of the database.  Text is a
    byte string. *)

From stdpp Require Import base strings list gmap sorting pretty.
From Stdlib Require Import ZArith Ascii String.

Set Warnings "-register-all".
Set Default Proof Using "Type".

Local Open Scope Z_scope.
Local Open Scope string_scope.

(** ** Wire representation *)

(** The data of a [Response]: what the serializers return and what the
    renderer turns into JSON text.  An object keeps its fields in the order
    of the serializer's [fields] tuple. *)
Inductive JSON : Type :=
| JNull
| JBool (b : bool)
| JInt (n : Z)
| JStr (s : string)
| JList (items : list JSON)
| JObj (fields : list (string * JSON)).

(** [obj[key]] on a serialized object. *)
Fixpoint assoc (key : string) (fields : list (string * JSON)) : option JSON :=
  match fields with
  | [] => None
  | (k, v) :: rest => if decide (k = key) then Some v else assoc key rest
  end.

Definition field (key : string) (j : JSON) : option JSON :=
  match j with
  | JObj fields => assoc key fields
  | _ => None
  end.

Record Response := mkResponse { data : JSON; status : Z }.

(** ** Models

    [Book], [BookRecord] and [User] are declared in [api/models.py]; their
    columns are the ones the serializers and the views name.  [BookReview]
    is the table created by migration 0004. *)

Module Book.
Record t := mk {
  pk : Z;
  title : string;
  author : string;
  publication_year : Z;
  featured : bool
}.
End Book.

Module BookRecord.
Record t := mk {
  pk : Z;
  book : Z;            (* foreign key to Book *)
  reader : Z;          (* foreign key to User *)
  reading_state : string
}.
End BookRecord.

Module BookReview.
Record t := mk {
  pk : Z;                  (* "id", BigAutoField *)
  body : string;           (* TextField *)
  book : Z;                (* ForeignKey, on_delete=CASCADE, related_name="reviews" *)
  reviewed_by : option Z   (* ForeignKey, null=True, on_delete=SET_NULL *)
}.
End BookReview.

Module User.
Record t := mk {
  pk : Z;
  username : string;
  email : string;
  password : string
}.
End User.

(** The database: the rows of each table in storage order, the through
    table of the many-to-many relation [favorite_books] as rows
    [(user_id, book_id)], and the sequences of the auto-increment keys. *)
Record DB := mkDB {
  books : list Book.t;
  book_records : list BookRecord.t;
  book_reviews : list BookReview.t;
  users : list User.t;
  favorite_books : list (Z * Z);
  book_seq : Z;
  record_seq : Z;
  review_seq : Z
}.

(** ** Exceptions and the handler monad *)

Inductive Exception : Type :=
| IntegrityError             (* django.db.IntegrityError *)
| Http404                    (* raised by get_object_or_404 *)
| ValidationError (detail : JSON)
| DoesNotExist               (* a related row that cannot be fetched *)
| KeyError (key : string)    (* a missing URL keyword argument *)
| ProtectedError.            (* deletion blocked by on_delete=PROTECT *)

(** A computation reads and writes the database and either returns a value
    or raises. *)
Definition ORM (A : Type) : Type := DB → (Exception + A) * DB.

Definition ret {A} (a : A) : ORM A := λ db, (inr a, db).
Definition raise {A} (e : Exception) : ORM A := λ db, (inl e, db).
Definition bind {A B} (m : ORM A) (k : A → ORM B) : ORM B :=
  λ db, match m db with
        | (inr a, db') => k a db'
        | (inl e, db') => (inl e, db')
        end.
Definition get_db : ORM DB := λ db, (inr db, db).
Definition put_db (db' : DB) : ORM unit := λ _, (inr tt, db').

(** [try: m except ...: h e]; the handler re-raises what it does not
    catch. *)
Definition try_except {A} (m : ORM A) (h : Exception → ORM A) : ORM A :=
  λ db, match m db with
        | (inl e, db') => h e db'
        | r => r
        end.

Notation "x <- m ;; k" := (bind m (λ x, k))
  (at level 100, m at next level, right associativity).

(** ** Requests and views *)

Record Request := mkRequest {
  user : Z;                           (* request.user *)
  query_params : gmap string string;  (* request.query_params *)
  body_data : JSON                    (* request.data *)
}.

(** The attributes of [self] the handlers read. *)
Record View := mkView {
  request : Request;
  kwargs : gmap string Z;   (* self.kwargs, from the URL *)
  action : string           (* self.action *)
}.

(** [self.kwargs[key]] *)
Definition kwarg (self : View) (key : string) : ORM Z :=
  match kwargs self !! key with
  | Some v => ret v
  | None => raise (KeyError key)
  end.

(** ** Lookups of the database engine *)

(** [hay LIKE '%needle%'] for a needle whose wildcards are escaped. *)
Fixpoint contains (needle hay : string) : bool :=
  String.prefix needle hay ||
  match hay with
  | EmptyString => false
  | String _ rest => contains needle rest
  end.

(** The [icontains] lookup: [UPPER(value) LIKE UPPER('%term%')].  [UPPER]
    is the function of the engine; what it does to a text depends on the
    encoding and the locale of the database. *)
Definition icontains (UPPER : string → string) (value term : string) : bool :=
  contains (UPPER term) (UPPER value).

(** The wording of the specification: [value] has a substring equal to
    [term] up to the case of letters.  [encoded] tells the byte strings
    that are texts in the encoding of the database, and
    [same_ignoring_case] is equality of two texts up to the case of
    letters; both are notions of the writing system and not of the
    lookup. *)
Definition contains_ignoring_case (encoded : string → Prop)
    (same_ignoring_case : string → string → Prop)
    (value term : string) : Prop :=
  ∃ pre mid post,
    encoded pre ∧ encoded mid ∧ encoded post
    ∧ value = pre ++ mid ++ post ∧ same_ignoring_case mid term.

(** What makes [UPPER] a case fold of the texts of an encoding.  Texts are
    closed under concatenation, and a text that occurs inside a text
    starts and ends between two characters.  [UPPER] maps a text to a text
    character by character: it distributes over concatenation, and a
    split of an upper-cased text into texts comes from a split of the
    text.  Two texts have the same upper case exactly when they are equal
    up to case. *)
Record CaseFold (encoded : string → Prop) (UPPER : string → string)
    (same_ignoring_case : string → string → Prop) : Prop := mkCaseFold {
  enc_nil : encoded "";
  enc_app : ∀ a b, encoded a → encoded b → encoded (a ++ b);
  enc_sync : ∀ p m q,
      encoded (p ++ m ++ q) → encoded m → m ≠ "" → encoded p ∧ encoded q;
  fold_encoded : ∀ a, encoded a → encoded (UPPER a);
  fold_nil : UPPER "" = "";
  fold_app : ∀ a b, encoded a → encoded b → UPPER (a ++ b) = UPPER a ++ UPPER b;
  fold_app_inv : ∀ t p q,
      encoded t → encoded p → encoded q → UPPER t = p ++ q →
      ∃ a b, encoded a ∧ encoded b ∧ t = a ++ b ∧ UPPER a = p ∧ UPPER b = q;
  fold_same : ∀ a b,
      encoded a → encoded b → (UPPER a = UPPER b ↔ same_ignoring_case a b)
}.

(** *** The locale C

    In the locale C with a single-byte encoding every byte string is a
    text, and the engine's [UPPER] maps the bytes of the letters a-z and
    leaves every other byte alone. *)
Definition encoded_C (_ : string) : Prop := True.

Definition upper_ascii (c : ascii) : ascii :=
  let n := nat_of_ascii c in
  if ((97 <=? n)%nat && (n <=? 122)%nat)%bool then ascii_of_nat (n - 32) else c.

Fixpoint UPPER_C (s : string) : string :=
  match s with
  | EmptyString => EmptyString
  | String c rest => String (upper_ascii c) (UPPER_C rest)
  end.

(** Equality up to case in the locale C, from the alphabet: two bytes are
    the same letter when they are equal or are the small and the capital
    form of one of the 26 letters. *)
Definition letter_pairs : list (ascii * ascii) :=
  [("a", "A"); ("b", "B"); ("c", "C"); ("d", "D"); ("e", "E"); ("f", "F");
   ("g", "G"); ("h", "H"); ("i", "I"); ("j", "J"); ("k", "K"); ("l", "L");
   ("m", "M"); ("n", "N"); ("o", "O"); ("p", "P"); ("q", "Q"); ("r", "R");
   ("s", "S"); ("t", "T"); ("u", "U"); ("v", "V"); ("w", "W"); ("x", "X");
   ("y", "Y"); ("z", "Z")]%char.

Definition same_letter (c d : ascii) : Prop :=
  c = d ∨ (c, d) ∈ letter_pairs ∨ (d, c) ∈ letter_pairs.

Global Instance same_letter_dec c d : Decision (same_letter c d).
Proof. unfold same_letter. apply _. Defined.

Fixpoint eq_ignoring_case_C (a b : string) : Prop :=
  match a, b with
  | EmptyString, EmptyString => True
  | String c a', String d b' => same_letter c d ∧ eq_ignoring_case_C a' b'
  | _, _ => False
  end.

(** The 256 bytes. *)
Definition all_ascii : list ascii := ascii_of_nat <$> seq 0 256.

(** ** Object-relational layer *)

Definition get_book (db : DB) (pk : Z) : option Book.t :=
  List.find (λ b, (Book.pk b =? pk)%Z) (books db).

Definition get_user (db : DB) (pk : Z) : option User.t :=
  List.find (λ u, (User.pk u =? pk)%Z) (users db).

(** [get_object_or_404(Book, pk=pk)] *)
Definition get_object_or_404_Book (pk : Z) : ORM Book.t :=
  db <- get_db ;;
  match get_book db pk with
  | Some b => ret b
  | None => raise Http404
  end.

(** [book.reviews], the reverse side of [BookReview.book]. *)
Definition reviews_of (db : DB) (b : Book.t) : list BookReview.t :=
  filter (λ r, BookReview.book r = Book.pk b) (book_reviews db).

(** The validated data of the three writable serializers: the fields that
    are not read-only. *)
Record BookData := mkBookData {
  vd_title : string;
  vd_author : string;
  vd_publication_year : Z;
  vd_featured : bool
}.

(** [nextval] of a key sequence.  The engine draws the key before it checks
    the constraints, so a rejected insert still advances the sequence. *)
Definition next_book_pk : ORM Z := λ db,
  (inr (book_seq db),
   mkDB (books db) (book_records db) (book_reviews db) (users db)
        (favorite_books db) (book_seq db + 1) (record_seq db) (review_seq db)).

Definition next_record_pk : ORM Z := λ db,
  (inr (record_seq db),
   mkDB (books db) (book_records db) (book_reviews db) (users db)
        (favorite_books db) (book_seq db) (record_seq db + 1) (review_seq db)).

Definition next_review_pk : ORM Z := λ db,
  (inr (review_seq db),
   mkDB (books db) (book_records db) (book_reviews db) (users db)
        (favorite_books db) (book_seq db) (record_seq db) (review_seq db + 1)).

(** Modelled from the spec: the uniqueness constraint of [Book], declared
    in [api/models.py]: title and author are unique together. *)
Definition book_unique_violation (db : DB) (title author : string) : Prop :=
  Exists (λ b, Book.title b = title ∧ Book.author b = author) (books db).

(** Modelled from the spec: the uniqueness constraint of [BookRecord],
    declared in [api/models.py]: one record per reader and book. *)
Definition record_unique_violation (db : DB) (reader book : Z) : Prop :=
  Exists (λ r, BookRecord.reader r = reader ∧ BookRecord.book r = book)
         (book_records db).

(** [UniqueConstraint(fields=("reviewed_by", "book"),
    name="unique_user_review")] of migration 0004.  A null reviewer never
    conflicts. *)
Definition unique_user_review_violation (db : DB) (reviewed_by : option Z)
    (book : Z) : Prop :=
  match reviewed_by with
  | None => False
  | Some u =>
      Exists (λ r, BookReview.reviewed_by r = Some u ∧ BookReview.book r = book)
             (book_reviews db)
  end.

Global Instance unique_user_review_violation_dec db u b :
  Decision (unique_user_review_violation db u b).
Proof. destruct u; simpl; apply _. Defined.

(** The primary key of each table: [pk] is the key of a stored row. *)
Definition book_pk_taken (db : DB) (pk : Z) : Prop :=
  Exists (λ b, Book.pk b = pk) (books db).

Definition record_pk_taken (db : DB) (pk : Z) : Prop :=
  Exists (λ r, BookRecord.pk r = pk) (book_records db).

Definition review_pk_taken (db : DB) (pk : Z) : Prop :=
  Exists (λ r, BookReview.pk r = pk) (book_reviews db).

(** The [INSERT] behind [serializer.save()] on each table.  The engine
    rejects a row whose key is stored already or that violates the
    uniqueness constraint; either way the driver raises
    [IntegrityError]. *)
Definition insert_book (v : BookData) : ORM Book.t :=
  pk <- next_book_pk ;;
  db <- get_db ;;
  if decide (book_pk_taken db pk
             ∨ book_unique_violation db (vd_title v) (vd_author v))
  then raise IntegrityError
  else
    let b := Book.mk pk (vd_title v) (vd_author v) (vd_publication_year v)
                     (vd_featured v) in
    _ <- put_db (mkDB (books db ++ [b]) (book_records db) (book_reviews db)
                      (users db) (favorite_books db) (book_seq db)
                      (record_seq db) (review_seq db)) ;;
    ret b.

Definition insert_record (reading_state : string) (reader book : Z)
  : ORM BookRecord.t :=
  pk <- next_record_pk ;;
  db <- get_db ;;
  if decide (record_pk_taken db pk ∨ record_unique_violation db reader book)
  then raise IntegrityError
  else
    let r := BookRecord.mk pk book reader reading_state in
    _ <- put_db (mkDB (books db) (book_records db ++ [r]) (book_reviews db)
                      (users db) (favorite_books db) (book_seq db)
                      (record_seq db) (review_seq db)) ;;
    ret r.

Definition insert_review (body : string) (reviewed_by : option Z) (book : Z)
  : ORM BookReview.t :=
  pk <- next_review_pk ;;
  db <- get_db ;;
  if decide (review_pk_taken db pk
             ∨ unique_user_review_violation db reviewed_by book)
  then raise IntegrityError
  else
    let r := BookReview.mk pk body book reviewed_by in
    _ <- put_db (mkDB (books db) (book_records db) (book_reviews db ++ [r])
                      (users db) (favorite_books db) (book_seq db)
                      (record_seq db) (review_seq db)) ;;
    ret r.

(** [user.favorite_books.all()]: the books joined with the through table. *)
Definition favorite_books_all (db : DB) (u : Z) : list Book.t :=
  b ← books db;
  (λ _, b) <$> filter (λ row, row = (u, Book.pk b)) (favorite_books db).

(** [user.favorite_books.add(book)]: the related manager inserts a through
    row only when the pair is not there yet. *)
Definition favorite_books_add (u : Z) (b : Book.t) : ORM unit :=
  db <- get_db ;;
  if decide ((u, Book.pk b) ∈ favorite_books db)
  then ret tt
  else put_db (mkDB (books db) (book_records db) (book_reviews db) (users db)
                    (favorite_books db ++ [(u, Book.pk b)]) (book_seq db)
                    (record_seq db) (review_seq db)).

(** The [on_delete] rule of [BookRecord.reader].  [api/models.py] declares
    it; the two rules modelled are the one that deletes the records with
    the user and the one that refuses the deletion. *)
Inductive OnDelete := CASCADE | PROTECT.

(** [on_delete=SET_NULL] on [BookReview.reviewed_by]. *)
Definition set_null_reviewed_by (u : Z) (r : BookReview.t) : BookReview.t :=
  if decide (BookReview.reviewed_by r = Some u)
  then BookReview.mk (BookReview.pk r) (BookReview.body r) (BookReview.book r) None
  else r.

(** The reviews after [UPDATE ... SET reviewed_by = NULL] on those of
    user [u].  The update writes a new version of each row it touches, and
    a read without [ORDER BY] returns these versions after the rows that
    were left alone. *)
Definition reviews_with_null_reviewer (u : Z) (reviews : list BookReview.t)
  : list BookReview.t :=
  filter (λ r, BookReview.reviewed_by r ≠ Some u) reviews
  ++ (set_null_reviewed_by u <$> filter (λ r, BookReview.reviewed_by r = Some u)
                                        reviews).

(** [user.delete()]: the deletion collector follows every relation that
    points to the user.  [reader_on_delete] is the rule of
    [BookRecord.reader], which [api/models.py] declares; the through rows
    of the many-to-many relation go with the user; reviews keep their row
    and lose their reviewer. *)
Definition User_delete (reader_on_delete : OnDelete) (u : Z) : ORM unit :=
  db <- get_db ;;
  match reader_on_delete, filter (λ r, BookRecord.reader r = u) (book_records db) with
  | PROTECT, _ :: _ => raise ProtectedError
  | _, _ =>
      put_db (mkDB (books db)
                   (filter (λ r, BookRecord.reader r ≠ u) (book_records db))
                   (reviews_with_null_reviewer u (book_reviews db))
                   (filter (λ row, User.pk row ≠ u) (users db))
                   (filter (λ row, row.1 ≠ u) (favorite_books db))
                   (book_seq db) (record_seq db) (review_seq db))
  end.

(** Referential integrity, which the engine keeps for every foreign key:
    the rows a record or a review points to exist. *)
Definition foreign_keys_valid (db : DB) : Prop :=
  Forall (λ r, is_Some (get_book db (BookRecord.book r))
               ∧ is_Some (get_user db (BookRecord.reader r)))
         (book_records db)
  ∧ Forall (λ r, is_Some (get_book db (BookReview.book r))
                 ∧ from_option (λ u, is_Some (get_user db u)) True
                               (BookReview.reviewed_by r))
           (book_reviews db).

(** The same for the through table of the favorites: every row points to
    a stored user and a stored book. *)
Definition favorites_valid (db : DB) : Prop :=
  Forall (λ row, is_Some (get_user db row.1) ∧ is_Some (get_book db row.2))
         (favorite_books db).

Global Instance favorites_valid_dec db : Decision (favorites_valid db).
Proof. unfold favorites_valid. apply _. Defined.

Global Instance foreign_keys_valid_dec db : Decision (foreign_keys_valid db).
Proof.
  unfold foreign_keys_valid. apply and_dec; [apply _|].
  apply Forall_dec. intros r. apply and_dec; [apply _|].
  destruct (BookReview.reviewed_by r); simpl; apply _.
Defined.

(** Two database states hold the same rows in every table (the key
    sequences may differ). *)
Definition same_rows (db db' : DB) : Prop :=
  books db' = books db
  ∧ book_records db' = book_records db
  ∧ book_reviews db' = book_reviews db
  ∧ users db' = users db
  ∧ favorite_books db' = favorite_books db.

(** ** Serializers ([api/serializers.py])

    A serializer turns a row into its representation.  A field that follows
    a foreign key fetches the related row and raises [DoesNotExist] when it
    is not there. *)
Definition Serializer (A : Type) : Type := DB → A → Exception + JSON.

(** [ListSerializer.to_representation]: the representations of the rows in
    order, up to the first exception. *)
Fixpoint to_representation_many {A} (s : Serializer A) (db : DB) (rows : list A)
  : Exception + list JSON :=
  match rows with
  | [] => inr []
  | x :: rest =>
      match s db x with
      | inl e => inl e
      | inr j =>
          match to_representation_many s db rest with
          | inl e => inl e
          | inr js => inr (j :: js)
          end
      end
  end.

(** [serializer.data] of [Serializer(instance)]. *)
Definition serializer_data {A} (s : Serializer A) (row : A) : ORM JSON :=
  λ db, (s db row, db).

(** [serializer.data] of [Serializer(queryset, many=True)]. *)
Definition serializer_data_many {A} (s : Serializer A) (rows : list A) : ORM JSON :=
  λ db, (match to_representation_many s db rows with
         | inl e => inl e
         | inr js => inr (JList js)
         end, db).

Definition BookSerializer : Serializer Book.t := λ _ b,
  inr (JObj [("pk", JInt (Book.pk b));
             ("title", JStr (Book.title b));
             ("author", JStr (Book.author b));
             ("publication_year", JInt (Book.publication_year b));
             ("featured", JBool (Book.featured b))]).

(** ** A small library

    A database with three books, two readers, their records, reviews and
    favorites, and stand-ins for what the section below takes as
    parameters; the examples at the end run the handlers on them. *)

Definition sample_db : DB :=
  mkDB [Book.mk 1 "Dune" "Frank Herbert" 1965 true;
        Book.mk 2 "Emma" "Jane Austen" 1815 false;
        Book.mk 3 "Children of Dune" "Frank Herbert" 1976 true]
       [BookRecord.mk 1 1 10 "rd"; BookRecord.mk 2 1 11 "wr";
        BookRecord.mk 3 2 10 "rg"]
       [BookReview.mk 1 "A desert classic" 1 (Some 10);
        BookReview.mk 2 "Slow start" 1 (Some 11);
        BookReview.mk 3 "Witty" 2 (Some 10)]
       [User.mk 10 "ada" "ada@example.org" "pbkdf2$a";
        User.mk 11 "bob" "bob@example.org" "pbkdf2$b"]
       [(10, 1); (11, 2)]
       4 4 4.

Definition sample_reverse (view_name : string) (pk : Z) : string :=
  "/" +:+ view_name +:+ "/" +:+ pretty pk.

Definition sample_fts_match (body term : string) : bool :=
  icontains UPPER_C body term.

Definition sample_book_validation (_ : DB) (d : JSON) : JSON + BookData :=
  match field "title" d, field "author" d, field "publication_year" d with
  | Some (JStr t), Some (JStr a), Some (JInt y) =>
      inr (mkBookData t a y
             match field "featured" d with Some (JBool b) => b | _ => false end)
  | _, _, _ => inl (JObj [("non_field_errors", JList [JStr "Invalid data."])])
  end.

Definition sample_text_validation (key : string) (_ : DB) (d : JSON)
  : JSON + string :=
  match field key d with
  | Some (JStr t) => inr t
  | _ => inl (JObj [(key, JList [JStr "This field is required."])])
  end.

Definition sample_view (u : Z) (url_kwargs : list (string * Z))
    (params : list (string * string)) (d : JSON) (act : string) : View :=
  mkView (mkRequest u (list_to_map params) d) (list_to_map url_kwargs) act.

(** The requests of the examples: user 10 asks again for what the
    database already holds, adds book 2 to the favorites, and lists the
    reviews and the records of book 1. *)
Definition sample_duplicate_book_request : View :=
  sample_view 10 [] []
    (JObj [("title", JStr "Dune"); ("author", JStr "Frank Herbert");
           ("publication_year", JInt 1965)])
    "create".

Definition sample_duplicate_record_request : View :=
  sample_view 10 [("book_pk", 1)] [] (JObj [("reading_state", JStr "rd")]) "create".

Definition sample_duplicate_review_request : View :=
  sample_view 10 [("book_pk", 1)] [] (JObj [("body", JStr "Again")]) "create".

Definition sample_favorite_request : View :=
  sample_view 10 [("book_pk", 2)] [] JNull "".

Definition sample_missing_favorite_request : View :=
  sample_view 10 [("book_pk", 9)] [] JNull "".

Definition sample_review_search_request : View :=
  sample_view 10 [("book_pk", 1)] [("search", "desert")] JNull "list".

Definition sample_record_list_request : View :=
  sample_view 10 [("book_pk", 1)] [] JNull "list".


Definition sample_invalid_request : View :=
  sample_view 10 [("book_pk", 1)] [] JNull "create".

Definition sample_missing_book_request : View :=
  sample_view 10 [("book_pk", 9)] []
    (JObj [("reading_state", JStr "rd"); ("body", JStr "Lost")]) "create".

Definition sample_new_record_request : View :=
  sample_view 11 [("book_pk", 2)] [] (JObj [("reading_state", JStr "wr")]) "create".

Definition sample_new_review_request : View :=
  sample_view 11 [("book_pk", 2)] [] (JObj [("body", JStr "Sharp")]) "create".

Definition sample_book_search_request : View :=
  sample_view 10 [] [("search", "emma")] JNull "retrieve".

Definition sample_empty_search_request : View :=
  sample_view 10 [] [("search", "")] JNull "list".



(** A permission check that lets every object through. *)
Definition sample_allow {A} (_ : View) (_ : A) : ORM unit := ret tt.

Section Views.

(** The URL of a named route for a primary key, as
    [HyperlinkedRelatedField] builds it.  The routes are declared in
    [urls.py]. *)
Variable reverse : string → Z → string.

(** The [UPPER] of the engine for the encoding and the locale of the
    database, used by the [icontains] lookup; the byte strings that are
    texts in that encoding, and equality of two texts up to the case of
    letters in that writing system. *)
Variable UPPER : string → string.
Variable encoded : string → Prop.
Variable same_ignoring_case : string → string → Prop.

(** The order of the database's collation on text, used by
    [order_by("title")]. *)
Variable collate_le : string → string → bool.

(** PostgreSQL full-text search behind the [search] lookup:
    [fts_match body term] is [to_tsvector(body) @@ plainto_tsquery(term)]. *)
Variable fts_match : string → string → bool.

(** [serializer.is_valid()] of the three writable serializers: the errors,
    or the validated data.  The checks come from the column declarations
    of [api/models.py]. *)
Variable book_run_validation : DB → JSON → JSON + BookData.
Variable record_run_validation : DB → JSON → JSON + string.
Variable review_run_validation : DB → JSON → JSON + string.

Definition BookDetailSerializer : Serializer Book.t := λ db b,
  inr (JObj [("pk", JInt (Book.pk b));
             ("title", JStr (Book.title b));
             ("author", JStr (Book.author b));
             ("publication_year", JInt (Book.publication_year b));
             ("featured", JBool (Book.featured b));
             ("reviews",
              JList ((λ r, JStr (reverse "book_reviews-detail" (BookReview.pk r)))
                       <$> reviews_of db b))]).

(** [SlugRelatedField(read_only=True, slug_field="username")] on a
    foreign key to [User]. *)
Definition username_slug (db : DB) (fk : Z) : Exception + JSON :=
  match get_user db fk with
  | Some u => inr (JStr (User.username u))
  | None => inl DoesNotExist
  end.

Definition BookRecordSerializer : Serializer BookRecord.t := λ db r,
  match get_book db (BookRecord.book r) with
  | None => inl DoesNotExist
  | Some b =>
      match BookSerializer db b with
      | inl e => inl e
      | inr jb =>
          match username_slug db (BookRecord.reader r) with
          | inl e => inl e
          | inr ju =>
              inr (JObj [("pk", JInt (BookRecord.pk r));
                         ("book", jb);
                         ("reader", ju);
                         ("reading_state", JStr (BookRecord.reading_state r))])
          end
      end
  end.

Definition BookReviewSerializer : Serializer BookReview.t := λ db r,
  match get_book db (BookReview.book r) with
  | None => inl DoesNotExist
  | Some b =>
      match
        match BookReview.reviewed_by r with
        | None => inr JNull
        | Some u => username_slug db u
        end
      with
      | inl e => inl e
      | inr ju =>
          inr (JObj [("pk", JInt (BookReview.pk r));
                     ("body", JStr (BookReview.body r));
                     ("book", JStr (Book.title b));
                     ("reviewed_by", ju)])
      end
  end.

(** ** [ListModelMixin.list]

    The views set no filter backend and no pagination class: the queryset
    of [get_queryset] is serialized as it is. *)
Definition ListModelMixin_list {A} (get_queryset : ORM (list A))
    (serializer_class : Serializer A) : ORM Response :=
  queryset <- get_queryset ;;
  d <- serializer_data_many serializer_class queryset ;;
  ret (mkResponse d 200).

(** ** [BookViewSet] *)

Definition BookViewSet_get_serializer_class (self : View) : Serializer Book.t :=
  if decide (action self = "list") then BookSerializer else BookDetailSerializer.

Definition BookViewSet_featured (self : View) : ORM Response :=
  db <- get_db ;;
  let featured_books := filter (λ b, Book.featured b = true) (books db) in
  d <- serializer_data_many (BookViewSet_get_serializer_class self) featured_books ;;
  ret (mkResponse d 200).

(** [Book.objects.all().order_by("title")] *)
Definition title_le (a b : Book.t) : Prop :=
  collate_le (Book.title a) (Book.title b) = true.

#[local] Instance title_le_dec : RelDecision title_le.
Proof. intros a b. unfold title_le. apply _. Defined.

Definition Book_objects_order_by_title (db : DB) : list Book.t :=
  merge_sort title_le (books db).

Definition BookViewSet_get_queryset (self : View) : ORM (list Book.t) :=
  db <- get_db ;;
  match query_params (request self) !! "search" with
  | Some search_term =>
      ret (filter (λ b, icontains UPPER (Book.title b) search_term = true)
                  (books db))
  | None => ret (Book_objects_order_by_title db)
  end.

Definition BookViewSet_list (self : View) : ORM Response :=
  ListModelMixin_list (BookViewSet_get_queryset self)
                      (BookViewSet_get_serializer_class self).

(** [CreateModelMixin.create]: validate, [perform_create], answer 201
    with the representation of the new row. *)
Definition CreateModelMixin_create {V A} (run_validation : DB → JSON → JSON + V)
    (perform_create : V → ORM A) (serializer_class : Serializer A)
    (self : View) : ORM Response :=
  db <- get_db ;;
  match run_validation db (body_data (request self)) with
  | inl errors => raise (ValidationError errors)
  | inr validated =>
      instance <- perform_create validated ;;
      d <- serializer_data serializer_class instance ;;
      ret (mkResponse d 201)
  end.

Definition duplicate_book_error : string :=
  "Unique constraint violation: there is already a book with this title by this author.".

Definition BookViewSet_create (self : View) : ORM Response :=
  try_except
    (CreateModelMixin_create book_run_validation insert_book
                             (BookViewSet_get_serializer_class self) self)
    (λ e, match e with
          | IntegrityError =>
              let error_data := JObj [("error", JStr duplicate_book_error)] in
              ret (mkResponse error_data 400)
          | _ => raise e
          end).

Definition BookViewSet_favorites (self : View) : ORM Response :=
  db <- get_db ;;
  let favorited_books := favorite_books_all db (user (request self)) in
  d <- serializer_data_many (BookViewSet_get_serializer_class self) favorited_books ;;
  ret (mkResponse d 200).

(** ** [BookRecordViewSet] *)

Definition BookRecordViewSet_get_queryset (self : View) : ORM (list BookRecord.t) :=
  db <- get_db ;;
  let queryset := book_records db in
  book_pk <- kwarg self "book_pk" ;;
  ret (filter (λ r, BookRecord.reader r = user (request self)
                    ∧ BookRecord.book r = book_pk) queryset).

Definition BookRecordViewSet_list (self : View) : ORM Response :=
  ListModelMixin_list (BookRecordViewSet_get_queryset self) BookRecordSerializer.

Definition BookRecordViewSet_perform_create (self : View) (reading_state : string)
  : ORM BookRecord.t :=
  book_pk <- kwarg self "book_pk" ;;
  book <- get_object_or_404_Book book_pk ;;
  insert_record reading_state (user (request self)) (Book.pk book).

Definition duplicate_record_error : string :=
  "Unique constraint violation: this user has already created a book record for this book.".

Definition BookRecordViewSet_create (self : View) : ORM Response :=
  try_except
    (CreateModelMixin_create record_run_validation
                             (BookRecordViewSet_perform_create self)
                             BookRecordSerializer self)
    (λ e, match e with
          | IntegrityError =>
              let error_data := JObj [("error", JStr duplicate_record_error)] in
              ret (mkResponse error_data 400)
          | _ => raise e
          end).

(** ** [BookReviewListCreateView] *)

Definition BookReviewListCreateView_get_queryset (self : View)
  : ORM (list BookReview.t) :=
  book_pk <- kwarg self "book_pk" ;;
  db <- get_db ;;
  let queryset := filter (λ r, BookReview.book r = book_pk) (book_reviews db) in
  match query_params (request self) !! "search" with
  | Some search_term =>
      ret (filter (λ r, fts_match (BookReview.body r) search_term = true) queryset)
  | None => ret queryset
  end.

Definition BookReviewListCreateView_list (self : View) : ORM Response :=
  ListModelMixin_list (BookReviewListCreateView_get_queryset self)
                      BookReviewSerializer.

Definition BookReviewListCreateView_perform_create (self : View) (body : string)
  : ORM BookReview.t :=
  book_pk <- kwarg self "book_pk" ;;
  book <- get_object_or_404_Book book_pk ;;
  insert_review body (Some (user (request self))) (Book.pk book).

(** The view does not override [create]: [post] runs the mixin's. *)
Definition BookReviewListCreateView_create (self : View) : ORM Response :=
  CreateModelMixin_create review_run_validation
                          (BookReviewListCreateView_perform_create self)
                          BookReviewSerializer self.

(** ** [CreateFavoriteView] *)

Definition CreateFavoriteView_post (self : View) : ORM Response :=
  let u := user (request self) in
  book_pk <- kwarg self "book_pk" ;;
  book <- get_object_or_404_Book book_pk ;;
  _ <- favorite_books_add u book ;;
  d <- serializer_data BookDetailSerializer book ;;
  ret (mkResponse d 201).

(** ** The framework around a handler

    [APIView.dispatch] runs the handler and passes what it raises to the
    exception handler, which answers the exceptions of the framework and
    lets every other exception through. *)
Definition exception_handler (e : Exception) : ORM Response :=
  match e with
  | Http404 => ret (mkResponse (JObj [("detail", JStr "Not found.")]) 404)
  | ValidationError detail => ret (mkResponse detail 400)
  | _ => raise e
  end.

Definition dispatch (handler : ORM Response) : ORM Response :=
  try_except handler exception_handler.

(** [POST] on the add-favorite route, as the client sees it. *)
Definition CreateFavoriteView_dispatch (self : View) : ORM Response :=
  dispatch (CreateFavoriteView_post self).

(** [POST] on the review route of a book, as the client sees it. *)
Definition BookReviewListCreateView_dispatch (self : View) : ORM Response :=
  dispatch (BookReviewListCreateView_create self).

(** ** Detail routes

    [BookViewSet] and [BookRecordViewSet] are [ModelViewSet]s and
    [BookReviewDetailView] is a [RetrieveDestroyAPIView]: their [retrieve]
    and [destroy] come from the framework's mixins and look the object up
    in the queryset of the view.  [pk] is the value of the URL keyword
    argument of the detail route, whose presence the framework asserts
    before the lookup. *)

(** [self.check_object_permissions(request, obj)] of each view: it returns,
    or raises what the permission classes of the view decide.  The classes
    are declared in [custom_permissions.py] and in the project settings. *)
Variable book_check_object_permissions : View → Book.t → ORM unit.
Variable record_check_object_permissions : View → BookRecord.t → ORM unit.
Variable review_check_object_permissions : View → BookReview.t → ORM unit.

(** [GenericAPIView.get_object]: [get_object_or_404] on the queryset of
    the view, then the object permissions. *)
Definition GenericAPIView_get_object {A} (get_queryset : ORM (list A))
    (pk_of : A → Z) (check_object_permissions : A → ORM unit) (pk : Z) : ORM A :=
  queryset <- get_queryset ;;
  match List.find (λ x, (pk_of x =? pk)%Z) queryset with
  | None => raise Http404
  | Some obj => _ <- check_object_permissions obj ;; ret obj
  end.

(** [RetrieveModelMixin.retrieve] *)
Definition RetrieveModelMixin_retrieve {A} (get_object : ORM A)
    (serializer_class : Serializer A) : ORM Response :=
  instance <- get_object ;;
  d <- serializer_data serializer_class instance ;;
  ret (mkResponse d 200).

(** [DestroyModelMixin.destroy]: [perform_destroy] is [instance.delete()];
    the answer is 204 without content. *)
Definition DestroyModelMixin_destroy {A} (get_object : ORM A)
    (perform_destroy : A → ORM unit) : ORM Response :=
  instance <- get_object ;;
  _ <- perform_destroy instance ;;
  ret (mkResponse JNull 204).

(** [instance.delete()] on a reading record and on a review: no relation
    points to either, so only the row goes. *)
Definition BookRecord_delete (r : BookRecord.t) : ORM unit :=
  db <- get_db ;;
  put_db (mkDB (books db)
               (filter (λ x, BookRecord.pk x ≠ BookRecord.pk r) (book_records db))
               (book_reviews db) (users db) (favorite_books db)
               (book_seq db) (record_seq db) (review_seq db)).

Definition BookReview_delete (r : BookReview.t) : ORM unit :=
  db <- get_db ;;
  put_db (mkDB (books db) (book_records db)
               (filter (λ x, BookReview.pk x ≠ BookReview.pk r) (book_reviews db))
               (users db) (favorite_books db)
               (book_seq db) (record_seq db) (review_seq db)).

Definition BookViewSet_get_object (self : View) (pk : Z) : ORM Book.t :=
  GenericAPIView_get_object (BookViewSet_get_queryset self) Book.pk
                            (book_check_object_permissions self) pk.

Definition BookViewSet_retrieve (self : View) (pk : Z) : ORM Response :=
  RetrieveModelMixin_retrieve (BookViewSet_get_object self pk)
                              (BookViewSet_get_serializer_class self).

Definition BookRecordViewSet_get_object (self : View) (pk : Z) : ORM BookRecord.t :=
  GenericAPIView_get_object (BookRecordViewSet_get_queryset self) BookRecord.pk
                            (record_check_object_permissions self) pk.

Definition BookRecordViewSet_retrieve (self : View) (pk : Z) : ORM Response :=
  RetrieveModelMixin_retrieve (BookRecordViewSet_get_object self pk)
                              BookRecordSerializer.

Definition BookRecordViewSet_destroy (self : View) (pk : Z) : ORM Response :=
  DestroyModelMixin_destroy (BookRecordViewSet_get_object self pk) BookRecord_delete.

(** [queryset = BookReview.objects.all()] *)
Definition BookReviewDetailView_get_object (self : View) (pk : Z) : ORM BookReview.t :=
  GenericAPIView_get_object (db <- get_db ;; ret (book_reviews db)) BookReview.pk
                            (review_check_object_permissions self) pk.

Definition BookReviewDetailView_retrieve (self : View) (pk : Z) : ORM Response :=
  RetrieveModelMixin_retrieve (BookReviewDetailView_get_object self pk)
                              BookReviewSerializer.

Definition BookReviewDetailView_destroy (self : View) (pk : Z) : ORM Response :=
  DestroyModelMixin_destroy (BookReviewDetailView_get_object self pk) BookReview_delete.

(** ** Invariants of the database *)

(** [unique_user_review] as a property of the stored reviews: two rows
    with the same non-null reviewer and the same book are one row. *)
Definition unique_user_review_holds (db : DB) : Prop :=
  ∀ i j r1 r2 u,
    book_reviews db !! i = Some r1 → book_reviews db !! j = Some r2 →
    BookReview.reviewed_by r1 = Some u → BookReview.reviewed_by r2 = Some u →
    BookReview.book r1 = BookReview.book r2 → i = j.

(** * Properties *)

(** ** Serialization of querysets *)

Lemma to_representation_many_Forall2 {A} (s : Serializer A) db rows js :
  to_representation_many s db rows = inr js ↔
  Forall2 (λ x j, s db x = inr j) rows js.
Proof.
  revert js. induction rows as [|x rows IH]; intros js; simpl.
  - split.
    + intros [= <-]. constructor.
    + intros ->%Forall2_nil_inv_l. reflexivity.
  - split.
    + destruct (s db x) as [e|j] eqn:Hx; [discriminate|].
      destruct (to_representation_many s db rows) as [e|js'] eqn:Hr; [discriminate|].
      intros [= <-]. constructor; [assumption|]. by apply IH.
    + intros (j & js' & Hj & Hjs & ->)%Forall2_cons_inv_l.
      rewrite Hj. apply IH in Hjs. by rewrite Hjs.
Qed.

Lemma Forall2_representation_elem {A} (s : Serializer A) db rows js j :
  Forall2 (λ x j, s db x = inr j) rows js →
  j ∈ js ↔ ∃ x, x ∈ rows ∧ s db x = inr j.
Proof.
  intros H. induction H as [|x j' rows js Hx _ IH].
  - split; [by intros ?%elem_of_nil | by intros (? & ?%elem_of_nil & _)].
  - rewrite elem_of_cons, IH. split.
    + intros [-> | (y & ? & ?)]; [exists x | exists y]; rewrite elem_of_cons; auto.
    + intros (y & [-> | ?]%elem_of_cons & Hy); [left; congruence | right; eauto].
Qed.

(** The two book serializers never raise. *)
Lemma BookViewSet_serializer_total self db b :
  ∃ j, BookViewSet_get_serializer_class self db b = inr j
       ∧ field "pk" j = Some (JInt (Book.pk b))
       ∧ field "title" j = Some (JStr (Book.title b))
       ∧ field "featured" j = Some (JBool (Book.featured b)).
Proof.
  unfold BookViewSet_get_serializer_class.
  case_decide; eexists; (split; [reflexivity|]); repeat split.
Qed.

Lemma BookViewSet_serializer_many self db rows :
  ∃ items,
    to_representation_many (BookViewSet_get_serializer_class self) db rows
      = inr items
    ∧ Forall2 (λ b j, BookViewSet_get_serializer_class self db b = inr j)
              rows items.
Proof.
  induction rows as [|b rows (items & Hitems & HF)]; simpl.
  - exists []. split; [reflexivity | constructor].
  - destruct (BookViewSet_serializer_total self db b) as (j & Hj & _).
    exists (j :: items). rewrite Hj, Hitems. split; [reflexivity|].
    by constructor.
Qed.

(** ** Featured books *)

(** C4: in every database state the featured action answers 200 with
    the representations of exactly the stored books whose flag is set:
    every item of the response has [featured] true, every item is the
    representation of a stored featured book, and every stored featured
    book is represented. *)
Theorem featured_returns_exactly_featured_books (self : View) (db : DB) :
  ∃ items,
    BookViewSet_featured self db = (inr (mkResponse (JList items) 200), db)
    ∧ (∀ j, j ∈ items → field "featured" j = Some (JBool true))
    ∧ (∀ j, j ∈ items ↔
            ∃ b, b ∈ books db ∧ Book.featured b = true
                 ∧ BookViewSet_get_serializer_class self db b = inr j)
    ∧ (∀ b, b ∈ books db → Book.featured b = true →
            ∃ j, j ∈ items
                 ∧ BookViewSet_get_serializer_class self db b = inr j).
Proof.
  destruct (BookViewSet_serializer_many self db
              (filter (λ b, Book.featured b = true) (books db)))
    as (items & Hitems & HF).
  exists items.
  assert (Hiff : ∀ j, j ∈ items ↔
            ∃ b, b ∈ books db ∧ Book.featured b = true
                 ∧ BookViewSet_get_serializer_class self db b = inr j).
  { intros j. rewrite (Forall2_representation_elem _ _ _ _ j HF). split.
    - intros (b & [Hb Hin]%list_elem_of_filter & Hj). eauto.
    - intros (b & Hin & Hb & Hj). exists b. split; [|assumption].
      by apply list_elem_of_filter. }
  split; [|split; [|split]].
  - unfold BookViewSet_featured, bind, get_db, serializer_data_many, ret.
    by rewrite Hitems.
  - intros j (b & _ & Hb & Hj)%Hiff.
    destruct (BookViewSet_serializer_total self db b) as (j' & Hj' & _ & _ & Hf).
    rewrite Hj in Hj'. injection Hj' as <-. by rewrite Hf, Hb.
  - exact Hiff.
  - intros b Hin Hb.
    destruct (BookViewSet_serializer_total self db b) as (j & Hj & _).
    exists j. split; [|assumption]. apply Hiff. eauto.
Qed.

(** ** Favorite books *)

Lemma elem_of_favorite_books_all db u b :
  b ∈ favorite_books_all db u ↔
  b ∈ books db ∧ (u, Book.pk b) ∈ favorite_books db.
Proof.
  unfold favorite_books_all. rewrite list_elem_of_bind. split.
  - intros (b' & Hb & Hin). apply list_elem_of_fmap in Hb as (row & -> & Hrow).
    apply list_elem_of_filter in Hrow as [-> Hrow]. done.
  - intros [Hin Hrow]. exists b. split; [|assumption].
    apply list_elem_of_fmap. exists (u, Book.pk b). split; [reflexivity|].
    by apply list_elem_of_filter.
Qed.


(** ** Searching books by title *)

Lemma append_nil (b : string) : "" ++ b = b.
Proof. reflexivity. Qed.

Lemma append_cons c (a b : string) : String c a ++ b = String c (a ++ b).
Proof. reflexivity. Qed.

Lemma prefix_app (needle hay : string) :
  String.prefix needle hay = true ↔ ∃ post, hay = needle ++ post.
Proof.
  revert hay. induction needle as [|c needle IH]; intros hay.
  - split; [intros _; by exists hay | intros _; by destruct hay].
  - setoid_rewrite append_cons. destruct hay as [|c' hay]; simpl.
    + split; [done | intros [post [=]]].
    + destruct (Ascii.ascii_dec c c') as [->|Hne].
      * rewrite IH. split; intros [post Hpost]; exists post; congruence.
      * split; [done | intros [post [=]]; congruence].
Qed.

Lemma contains_app (needle hay : string) :
  contains needle hay = true ↔ ∃ pre post, hay = pre ++ needle ++ post.
Proof.
  induction hay as [|c hay IH].
  - change (contains needle "") with (String.prefix needle "" || false).
    rewrite orb_false_r, prefix_app. split.
    + intros [post ->]. by exists "", post.
    + intros ([|c pre] & post & Hpost); [by exists post | discriminate].
  - change (contains needle (String c hay))
      with (String.prefix needle (String c hay) || contains needle hay).
    rewrite orb_true_iff, IH, prefix_app. split.
    + intros [[post ->] | (pre & post & ->)].
      * by exists "", post.
      * by exists (String c pre), post.
    + intros ([|c' pre] & post & Hpost).
      * left. by exists post.
      * right. rewrite append_cons in Hpost. injection Hpost as -> ->.
        by exists pre, post.
Qed.

(** The lookup computes what the specification words, for an [UPPER]
    that is a case fold, on texts. *)
Lemma icontains_spec (value term : string) :
  CaseFold encoded UPPER same_ignoring_case →
  encoded value → encoded term →
  icontains UPPER value term = true ↔
  contains_ignoring_case encoded same_ignoring_case value term.
Proof.
  intros F Hvalue Hterm.
  unfold icontains, contains_ignoring_case. rewrite contains_app. split.
  - intros (p & q & Hpq).
    destruct (decide (UPPER term = "")) as [Hnil | Hne].
    + exists "", "", value.
      split; [apply (enc_nil _ _ _ F)|]. split; [apply (enc_nil _ _ _ F)|].
      split; [exact Hvalue|]. split; [reflexivity|].
      apply (fold_same _ _ _ F); [apply (enc_nil _ _ _ F) | exact Hterm|].
      by rewrite (fold_nil _ _ _ F).
    + pose proof (fold_encoded _ _ _ F _ Hvalue) as Hup. rewrite Hpq in Hup.
      pose proof (fold_encoded _ _ _ F _ Hterm) as Hupterm.
      destruct (enc_sync _ _ _ F _ _ _ Hup Hupterm Hne) as [Hp Hq].
      destruct (fold_app_inv _ _ _ F value p (UPPER term ++ q))
        as (a & b & Ha & Hb & -> & HUa & HUb); try done.
      { by apply (enc_app _ _ _ F). }
      destruct (fold_app_inv _ _ _ F b (UPPER term) q)
        as (mid & post & Hmid & Hpost & -> & HUmid & _); try done.
      exists a, mid, post. do 4 (split; [done|]).
      by apply (fold_same _ _ _ F).
  - intros (pre & mid & post & Hpre & Hmid & Hpost & -> & Hsame).
    exists (UPPER pre), (UPPER post).
    rewrite (fold_app _ _ _ F pre (mid ++ post)), (fold_app _ _ _ F mid post);
      try done; [|by apply (enc_app _ _ _ F)].
    apply (fold_same _ _ _ F) in Hsame; [|done..]. by rewrite Hsame.
Qed.

(** *** The locale C is a case fold for the 26 letters *)

Lemma UPPER_C_app (a b : string) : UPPER_C (a ++ b) = UPPER_C a ++ UPPER_C b.
Proof.
  induction a as [|c a IH]; [done|].
  rewrite append_cons. simpl. by rewrite IH, append_cons.
Qed.

Lemma UPPER_C_app_inv (t p q : string) :
  UPPER_C t = p ++ q → ∃ a b, t = a ++ b ∧ UPPER_C a = p ∧ UPPER_C b = q.
Proof.
  revert t. induction p as [|c p IH]; intros t.
  - intros H. by exists "", t.
  - rewrite append_cons. destruct t as [|c' t]; simpl; [discriminate|].
    intros [= Hc (a & b & -> & <- & <-)%IH].
    exists (String c' a), b. simpl. by rewrite Hc.
Qed.

Lemma all_ascii_complete (c : ascii) : c ∈ all_ascii.
Proof.
  rewrite <- (ascii_nat_embedding c). apply list_elem_of_fmap.
  exists (nat_of_ascii c). split; [done|]. apply elem_of_seq.
  pose proof (nat_ascii_bounded c). lia.
Qed.

(** Every byte is its own upper case or the small form of a letter whose
    capital form is its upper case. *)
Lemma upper_ascii_cases (c : ascii) :
  upper_ascii c = c ∨ (c, upper_ascii c) ∈ letter_pairs.
Proof.
  assert (Hall : Forall (λ c, upper_ascii c = c
                              ∨ (c, upper_ascii c) ∈ letter_pairs) all_ascii)
    by compute_done.
  rewrite Forall_forall in Hall. exact (Hall c (all_ascii_complete c)).
Qed.

(** The two forms of a letter have the capital form as upper case. *)
Lemma upper_ascii_letter_pairs (c d : ascii) :
  (c, d) ∈ letter_pairs → upper_ascii c = d ∧ upper_ascii d = d.
Proof.
  assert (Hall : Forall (λ p, upper_ascii p.1 = p.2 ∧ upper_ascii p.2 = p.2)
                        letter_pairs) by compute_done.
  rewrite Forall_forall in Hall. intros Hin. exact (Hall (c, d) Hin).
Qed.

(** A capital form belongs to one letter. *)
Lemma letter_pairs_inj (c d e : ascii) :
  (c, e) ∈ letter_pairs → (d, e) ∈ letter_pairs → c = d.
Proof.
  assert (Hall : Forall (λ p, Forall (λ q, p.2 = q.2 → p.1 = q.1) letter_pairs)
                        letter_pairs) by compute_done.
  rewrite Forall_forall in Hall. intros Hc Hd.
  pose proof (Hall (c, e) Hc) as Hp. rewrite Forall_forall in Hp.
  exact (Hp (d, e) Hd eq_refl).
Qed.

(** Two bytes have the same upper case exactly when they are the same
    letter. *)
Lemma upper_ascii_same_letter (c d : ascii) :
  upper_ascii c = upper_ascii d ↔ same_letter c d.
Proof.
  unfold same_letter. split.
  - intros Heq.
    destruct (upper_ascii_cases c) as [Hc | Hc],
             (upper_ascii_cases d) as [Hd | Hd].
    + left. congruence.
    + right. right. rewrite <- Heq, Hc in Hd. exact Hd.
    + right. left. rewrite Heq, Hd in Hc. exact Hc.
    + left. rewrite Heq in Hc. exact (letter_pairs_inj _ _ _ Hc Hd).
  - intros [-> | [Hin | Hin]]; [done| |];
      apply upper_ascii_letter_pairs in Hin as [H1 H2]; congruence.
Qed.

Lemma UPPER_C_same (a b : string) :
  UPPER_C a = UPPER_C b ↔ eq_ignoring_case_C a b.
Proof.
  revert b. induction a as [|c a IH]; intros [|d b]; simpl; try done.
  rewrite <- IH, <- upper_ascii_same_letter. split.
  - by intros [= ? ?].
  - by intros [-> ->].
Qed.

Lemma UPPER_C_CaseFold : CaseFold encoded_C UPPER_C eq_ignoring_case_C.
Proof.
  split; try done.
  - intros a b _ _. apply UPPER_C_app.
  - intros t p q _ _ _ (a & b & ? & ? & ?)%UPPER_C_app_inv. by exists a, b.
  - intros a b _ _. apply UPPER_C_same.
Qed.

(** [order_by("title")] returns the rows in the order of the collation. *)
Lemma Book_objects_order_by_title_Sorted db :
  (∀ s t, collate_le s t = true ∨ collate_le t s = true) →
  Sorted title_le (Book_objects_order_by_title db).
Proof.
  intros Htotal. apply Sorted_merge_sort.
  intros a b. apply Htotal.
Qed.


(** ** Nested lists: reading records and reviews of a book *)

Lemma ListModelMixin_list_run {A} (get_queryset : ORM (list A))
    (s : Serializer A) db queryset :
  get_queryset db = (inr queryset, db) →
  ListModelMixin_list get_queryset s db =
    (match to_representation_many s db queryset with
     | inl e => inl e
     | inr items => inr (mkResponse (JList items) 200)
     end, db).
Proof.
  intros Hqs. unfold ListModelMixin_list, bind, serializer_data_many, ret.
  rewrite Hqs. by destruct (to_representation_many s db queryset).
Qed.

Lemma to_representation_many_is_inr {A} (s : Serializer A) db rows :
  Forall (λ x, ∃ j, s db x = inr j) rows →
  ∃ items, to_representation_many s db rows = inr items.
Proof.
  induction 1 as [|x rows [j Hj] _ [items Hitems]]; simpl.
  - by exists [].
  - exists (j :: items). by rewrite Hj, Hitems.
Qed.

Lemma BookReviewSerializer_total db r :
  foreign_keys_valid db → r ∈ book_reviews db →
  ∃ j, BookReviewSerializer db r = inr j.
Proof.
  intros [_ Hfk] Hin. rewrite Forall_forall in Hfk.
  destruct (Hfk r Hin) as [[b Hb] Hu].
  unfold BookReviewSerializer, username_slug. rewrite Hb.
  destruct (BookReview.reviewed_by r) as [u|]; simpl in Hu; [|by eexists].
  destruct Hu as [row ->]. by eexists.
Qed.

Lemma BookRecordSerializer_total db r :
  foreign_keys_valid db → r ∈ book_records db →
  ∃ j, BookRecordSerializer db r = inr j.
Proof.
  intros [Hfk _] Hin. rewrite Forall_forall in Hfk.
  destruct (Hfk r Hin) as [[b Hb] [u Hu]].
  unfold BookRecordSerializer, username_slug, BookSerializer.
  rewrite Hb, Hu. by eexists.
Qed.

(** C6: the review list nested under a book selects only reviews of
    that book and, when a [search] parameter is present, only those whose
    body the full-text search matches; whatever response it gives lists
    the representations of exactly these rows, and it gives one whenever
    the foreign keys of the stored reviews resolve. *)
Theorem review_list_of_book_and_search (self : View) (db : DB) (book_pk : Z) :
  kwargs self !! "book_pk" = Some book_pk →
  ∃ queryset,
    BookReviewListCreateView_get_queryset self db = (inr queryset, db)
    ∧ (∀ r, r ∈ queryset ↔
            r ∈ book_reviews db ∧ BookReview.book r = book_pk
            ∧ match query_params (request self) !! "search" with
              | Some s => fts_match (BookReview.body r) s = true
              | None => True
              end)
    ∧ (∀ resp db', BookReviewListCreateView_list self db = (inr resp, db') →
            db' = db
            ∧ ∃ items, resp = mkResponse (JList items) 200
                       ∧ Forall2 (λ r j, BookReviewSerializer db r = inr j)
                                 queryset items)
    ∧ (foreign_keys_valid db →
            ∃ items, BookReviewListCreateView_list self db
                     = (inr (mkResponse (JList items) 200), db)).
Proof.
  intros Hkw.
  set (of_book := filter (λ r, BookReview.book r = book_pk) (book_reviews db)).
  set (queryset :=
         match query_params (request self) !! "search" with
         | Some s => filter (λ r, fts_match (BookReview.body r) s = true) of_book
         | None => of_book
         end).
  assert (Hqs : BookReviewListCreateView_get_queryset self db = (inr queryset, db)).
  { unfold BookReviewListCreateView_get_queryset, bind, kwarg, get_db.
    rewrite Hkw. unfold ret, queryset, of_book.
    by destruct (query_params (request self) !! "search"). }
  assert (Hmem : ∀ r, r ∈ queryset ↔
            r ∈ book_reviews db ∧ BookReview.book r = book_pk
            ∧ match query_params (request self) !! "search" with
              | Some s => fts_match (BookReview.body r) s = true
              | None => True
              end).
  { intros r. unfold queryset, of_book.
    destruct (query_params (request self) !! "search");
      rewrite ?list_elem_of_filter.
    - split; [intros (? & ? & ?) | intros (? & ? & ?)]; auto.
    - split; [intros [? ?] | intros (? & ? & _)]; auto. }
  exists queryset. split; [exact Hqs|]. split; [exact Hmem|].
  unfold BookReviewListCreateView_list.
  rewrite (ListModelMixin_list_run _ _ _ _ Hqs). split.
  - intros resp db'.
    destruct (to_representation_many BookReviewSerializer db queryset)
      as [e|items] eqn:Hitems; [discriminate|].
    intros [= <- <-]. split; [reflexivity|]. exists items.
    split; [reflexivity|]. by apply to_representation_many_Forall2.
  - intros Hfk.
    destruct (to_representation_many_is_inr BookReviewSerializer db queryset)
      as [items ->]; [|by exists items].
    apply Forall_forall. intros r [Hin _]%Hmem.
    by apply BookReviewSerializer_total.
Qed.

(** C9: the reading-record list nested under a book selects only the
    records whose reader is the requesting user and whose book is the one
    of the URL; a record of another user is never selected; whatever
    response it gives lists the representations of exactly these rows,
    and it gives one whenever the foreign keys of the stored records
    resolve. *)
Theorem record_list_of_reader_and_book (self : View) (db : DB) (book_pk : Z) :
  kwargs self !! "book_pk" = Some book_pk →
  ∃ queryset,
    BookRecordViewSet_get_queryset self db = (inr queryset, db)
    ∧ (∀ r, r ∈ queryset ↔
            r ∈ book_records db
            ∧ BookRecord.reader r = user (request self)
            ∧ BookRecord.book r = book_pk)
    ∧ (∀ r, BookRecord.reader r ≠ user (request self) → r ∉ queryset)
    ∧ (∀ resp db', BookRecordViewSet_list self db = (inr resp, db') →
            db' = db
            ∧ ∃ items, resp = mkResponse (JList items) 200
                       ∧ Forall2 (λ r j, BookRecordSerializer db r = inr j)
                                 queryset items)
    ∧ (foreign_keys_valid db →
            ∃ items, BookRecordViewSet_list self db
                     = (inr (mkResponse (JList items) 200), db)).
Proof.
  intros Hkw.
  set (queryset := filter (λ r, BookRecord.reader r = user (request self)
                                ∧ BookRecord.book r = book_pk) (book_records db)).
  assert (Hqs : BookRecordViewSet_get_queryset self db = (inr queryset, db)).
  { unfold BookRecordViewSet_get_queryset, bind, kwarg, get_db.
    by rewrite Hkw. }
  assert (Hmem : ∀ r, r ∈ queryset ↔
            r ∈ book_records db
            ∧ BookRecord.reader r = user (request self)
            ∧ BookRecord.book r = book_pk).
  { intros r. unfold queryset. rewrite list_elem_of_filter.
    split; [intros ((? & ?) & ?) | intros (? & ? & ?)]; auto. }
  exists queryset. split; [exact Hqs|]. split; [exact Hmem|].
  split; [intros r Hne (_ & Hr & _)%Hmem; contradiction|].
  unfold BookRecordViewSet_list.
  rewrite (ListModelMixin_list_run _ _ _ _ Hqs). split.
  - intros resp db'.
    destruct (to_representation_many BookRecordSerializer db queryset)
      as [e|items] eqn:Hitems; [discriminate|].
    intros [= <- <-]. split; [reflexivity|]. exists items.
    split; [reflexivity|]. by apply to_representation_many_Forall2.
  - intros Hfk.
    destruct (to_representation_many_is_inr BookRecordSerializer db queryset)
      as [items ->]; [|by exists items].
    apply Forall_forall. intros r [Hin _]%Hmem.
    by apply BookRecordSerializer_total.
Qed.

(** ** Creation and uniqueness constraints *)

Lemma get_book_pk db pk b : get_book db pk = Some b → Book.pk b = pk.
Proof.
  unfold get_book. intros [_ H]%find_some. by apply Z.eqb_eq.
Qed.

Lemma get_book_elem db pk b : get_book db pk = Some b → b ∈ books db.
Proof.
  unfold get_book. intros [H _]%find_some. by apply list_elem_of_In.
Qed.

Lemma record_violation_book_exists db reader book_pk :
  foreign_keys_valid db → record_unique_violation db reader book_pk →
  is_Some (get_book db book_pk).
Proof.
  intros [Hfk _] (r & Hin & _ & <-)%Exists_exists.
  rewrite Forall_forall in Hfk. by destruct (Hfk r Hin).
Qed.

Lemma review_violation_book_exists db reviewer book_pk :
  foreign_keys_valid db → unique_user_review_violation db (Some reviewer) book_pk →
  is_Some (get_book db book_pk).
Proof.
  intros [_ Hfk] (r & Hin & _ & <-)%Exists_exists.
  rewrite Forall_forall in Hfk. by destruct (Hfk r Hin).
Qed.

(** C1: a book creation whose insert violates the (title, author)
    constraint is answered 400 with the duplicate-book message; a
    reading-record creation whose insert violates the (reader, book)
    constraint is answered 400 with the duplicate-record message; no row
    is written in either case, and the two messages differ.  An insert is
    attempted for the data that passed validation; for a record the book
    is the one of the URL, which exists since a stored record points to
    it. *)
Theorem duplicate_creations_return_400 :
  (∀ self db v,
      book_run_validation db (body_data (request self)) = inr v →
      book_unique_violation db (vd_title v) (vd_author v) →
      ∃ db',
        BookViewSet_create self db
        = (inr (mkResponse (JObj [("error", JStr duplicate_book_error)]) 400), db')
        ∧ same_rows db db')
  ∧ (∀ self db reading_state book_pk,
      record_run_validation db (body_data (request self)) = inr reading_state →
      kwargs self !! "book_pk" = Some book_pk →
      foreign_keys_valid db →
      record_unique_violation db (user (request self)) book_pk →
      ∃ db',
        BookRecordViewSet_create self db
        = (inr (mkResponse (JObj [("error", JStr duplicate_record_error)]) 400), db')
        ∧ same_rows db db')
  ∧ duplicate_book_error ≠ duplicate_record_error.
Proof.
  split; [|split].
  - intros self db v Hvalid Hdup.
    unfold BookViewSet_create, try_except, CreateModelMixin_create, bind, get_db.
    rewrite Hvalid. unfold insert_book, bind, next_book_pk, get_db. simpl.
    rewrite decide_True by (right; exact Hdup). simpl.
    eexists. split; [reflexivity|]. by repeat split.
  - intros self db reading_state book_pk Hvalid Hkw Hfk Hdup.
    destruct (record_violation_book_exists _ _ _ Hfk Hdup) as [book Hbook].
    unfold BookRecordViewSet_create, try_except, CreateModelMixin_create,
      bind, get_db.
    rewrite Hvalid.
    unfold BookRecordViewSet_perform_create, bind, kwarg. rewrite Hkw.
    unfold ret, get_object_or_404_Book, bind, get_db. rewrite Hbook.
    unfold ret, insert_record, bind, next_record_pk, get_db. simpl.
    rewrite (get_book_pk _ _ _ Hbook).
    rewrite decide_True by (right; exact Hdup). simpl.
    eexists. split; [reflexivity|]. by repeat split.
  - discriminate.
Qed.

(** The review route has no such translation: a review creation whose
    insert violates [unique_user_review] leaves the view as an
    [IntegrityError]. *)
Lemma duplicate_review_raises self db body book_pk :
  review_run_validation db (body_data (request self)) = inr body →
  kwargs self !! "book_pk" = Some book_pk →
  foreign_keys_valid db →
  unique_user_review_violation db (Some (user (request self))) book_pk →
  ∃ db', BookReviewListCreateView_dispatch self db = (inl IntegrityError, db')
         ∧ same_rows db db'.
Proof.
  intros Hvalid Hkw Hfk Hdup.
  destruct (review_violation_book_exists _ _ _ Hfk Hdup) as [book Hbook].
  unfold BookReviewListCreateView_dispatch, dispatch, try_except,
    BookReviewListCreateView_create, CreateModelMixin_create, bind, get_db.
  rewrite Hvalid.
  unfold BookReviewListCreateView_perform_create, bind, kwarg. rewrite Hkw.
  unfold ret, get_object_or_404_Book, bind, get_db. rewrite Hbook.
  unfold ret, insert_review, bind, next_review_pk, get_db. simpl.
  rewrite (get_book_pk _ _ _ Hbook).
  rewrite decide_True by (right; exact Hdup). simpl.
  eexists. split; [reflexivity|]. by repeat split.
Qed.

(** ** Adding a favorite *)

Lemma filter_eq_not_elem {A} `{EqDecision A} (x : A) (l : list A) :
  x ∉ l → filter (λ y, y = x) l = [].
Proof.
  induction l as [|y l IH]; [done|].
  intros [Hne Hnin]%not_elem_of_cons.
  rewrite filter_cons_False by congruence. by apply IH.
Qed.

Lemma filter_eq_length_NoDup {A} `{EqDecision A} (x : A) (l : list A) :
  NoDup l → x ∈ l → List.length (filter (λ y, y = x) l) = 1%nat.
Proof.
  induction 1 as [|y l Hy Hnd IH]; [by intros ?%elem_of_nil|].
  intros Hin. destruct (decide (y = x)) as [->|Hne].
  - rewrite filter_cons_True by reflexivity.
    by rewrite filter_eq_not_elem.
  - rewrite filter_cons_False by exact Hne.
    apply IH. apply elem_of_cons in Hin as [->|]; [contradiction | assumption].
Qed.

Lemma favorite_books_add_run u b db :
  ∃ db',
    favorite_books_add u b db = (inr tt, db')
    ∧ books db' = books db ∧ book_records db' = book_records db
    ∧ book_reviews db' = book_reviews db ∧ users db' = users db
    ∧ (u, Book.pk b) ∈ favorite_books db'
    ∧ (∀ row, row ∈ favorite_books db' ↔
              row ∈ favorite_books db ∨ row = (u, Book.pk b))
    ∧ ((u, Book.pk b) ∈ favorite_books db → db' = db)
    ∧ (NoDup (favorite_books db) → NoDup (favorite_books db')).
Proof.
  unfold favorite_books_add, bind, get_db. case_decide as Hin.
  - exists db. repeat split; try done; [by left | by intros [? | ->]].
  - eexists. split; [reflexivity|]. simpl. repeat split; try done.
    + apply elem_of_app. right. by apply list_elem_of_singleton.
    + intros [? | ->%list_elem_of_singleton]%elem_of_app; [by left | by right].
    + intros [? | ->]; apply elem_of_app;
        [by left | right; by apply list_elem_of_singleton].
    + intros Hnd. apply NoDup_app. split; [exact Hnd|].
      split; [|apply NoDup_singleton].
      intros row Hrow ->%list_elem_of_singleton. contradiction.
Qed.

Lemma BookDetailSerializer_same_reviews db db' b :
  book_reviews db' = book_reviews db →
  BookDetailSerializer db' b = BookDetailSerializer db b.
Proof. intros H. unfold BookDetailSerializer, reviews_of. by rewrite H. Qed.

Lemma CreateFavoriteView_post_found self db book_pk book :
  kwargs self !! "book_pk" = Some book_pk →
  get_book db book_pk = Some book →
  ∃ db',
    favorite_books_add (user (request self)) book db = (inr tt, db')
    ∧ CreateFavoriteView_post self db
      = (match BookDetailSerializer db book with
         | inl e => inl e
         | inr d => inr (mkResponse d 201)
         end, db')
    ∧ get_book db' book_pk = Some book.
Proof.
  intros Hkw Hbook.
  destruct (favorite_books_add_run (user (request self)) book db)
    as (db' & Hadd & Hbooks & _ & Hreviews & _).
  exists db'. split; [exact Hadd|]. split.
  - unfold CreateFavoriteView_post, bind, kwarg. rewrite Hkw.
    unfold ret, get_object_or_404_Book, bind, get_db. rewrite Hbook.
    unfold ret. rewrite Hadd. unfold serializer_data.
    by rewrite (BookDetailSerializer_same_reviews db db' book Hreviews).
  - unfold get_book. by rewrite Hbooks.
Qed.

(** C3: for a stored book, adding it to the favorites a second time
    gives the same response and leaves the database exactly as the first
    call left it; the through table, which holds no pair twice, then holds
    the pair (user, book) exactly once, the other pairs being those it
    held before. *)
Theorem add_favorite_is_idempotent (self : View) (db : DB) (book_pk : Z)
    (book : Book.t) :
  kwargs self !! "book_pk" = Some book_pk →
  get_book db book_pk = Some book →
  NoDup (favorite_books db) →
  ∃ resp db1,
    CreateFavoriteView_dispatch self db = (inr resp, db1)
    ∧ CreateFavoriteView_dispatch self db1 = (inr resp, db1)
    ∧ List.length (filter (λ row, row = (user (request self), book_pk))
                     (favorite_books db1)) = 1%nat
    ∧ (∀ row, row ∈ favorite_books db1 ↔
              row ∈ favorite_books db ∨ row = (user (request self), book_pk))
    ∧ NoDup (favorite_books db1).
Proof.
  intros Hkw Hbook Hnd.
  pose proof (get_book_pk _ _ _ Hbook) as Hpk.
  destruct (CreateFavoriteView_post_found self db book_pk book Hkw Hbook)
    as (db1 & Hadd & Hpost & Hbook1).
  destruct (favorite_books_add_run (user (request self)) book db)
    as (db1' & Hadd' & _ & _ & Hreviews & _ & Hin & Hrows & _ & Hnd1).
  rewrite Hadd in Hadd'. injection Hadd' as <-.
  destruct (CreateFavoriteView_post_found self db1 book_pk book Hkw Hbook1)
    as (db2 & Hadd2 & Hpost2 & _).
  destruct (favorite_books_add_run (user (request self)) book db1)
    as (db2' & Hadd2' & _ & _ & _ & _ & _ & _ & Hsame & _).
  rewrite Hadd2 in Hadd2'. injection Hadd2' as <-.
  rewrite (Hsame Hin) in Hpost2.
  rewrite (BookDetailSerializer_same_reviews db db1 book Hreviews) in Hpost2.
  rewrite Hpk in Hin, Hrows, Hsame.
  unfold CreateFavoriteView_dispatch, dispatch, try_except.
  eexists _, db1. rewrite Hpost, Hpost2. unfold BookDetailSerializer.
  split; [reflexivity|]. split; [reflexivity|].
  split; [|split; [exact Hrows | exact (Hnd1 Hnd)]].
  apply filter_eq_length_NoDup; [exact (Hnd1 Hnd) | exact Hin].
Qed.

(** C10: for a stored book the add-favorite route answers 201 with the
    representation of the book, whether or not the user had it among the
    favorites; for a key with no book it answers 404 and leaves the
    database, and with it the favorites, as it was. *)
Theorem add_favorite_status (self : View) (db : DB) (book_pk : Z) :
  kwargs self !! "book_pk" = Some book_pk →
  match get_book db book_pk with
  | Some book =>
      ∃ d db',
        CreateFavoriteView_dispatch self db = (inr (mkResponse d 201), db')
        ∧ BookDetailSerializer db' book = inr d
        ∧ field "pk" d = Some (JInt book_pk)
  | None =>
      CreateFavoriteView_dispatch self db
      = (inr (mkResponse (JObj [("detail", JStr "Not found.")]) 404), db)
  end.
Proof.
  intros Hkw. destruct (get_book db book_pk) as [book|] eqn:Hbook.
  - destruct (CreateFavoriteView_post_found self db book_pk book Hkw Hbook)
      as (db' & Hadd & Hpost & _).
    destruct (favorite_books_add_run (user (request self)) book db)
      as (db1 & Hadd' & _ & _ & Hreviews & _).
    rewrite Hadd in Hadd'. injection Hadd' as <-.
    unfold CreateFavoriteView_dispatch, dispatch, try_except.
    eexists _, db'.
    rewrite Hpost, (BookDetailSerializer_same_reviews db db' book Hreviews).
    unfold BookDetailSerializer.
    split; [reflexivity|]. split; [reflexivity|].
    simpl. by rewrite (get_book_pk _ _ _ Hbook).
  - unfold CreateFavoriteView_dispatch, dispatch, try_except,
      CreateFavoriteView_post, bind, kwarg.
    rewrite Hkw. unfold ret, get_object_or_404_Book, bind, get_db.
    by rewrite Hbook.
Qed.

(** ** Deleting a user *)

Lemma set_null_reviewed_by_frame u r :
  BookReview.pk (set_null_reviewed_by u r) = BookReview.pk r
  ∧ BookReview.body (set_null_reviewed_by u r) = BookReview.body r
  ∧ BookReview.book (set_null_reviewed_by u r) = BookReview.book r
  ∧ (BookReview.reviewed_by r = Some u →
     BookReview.reviewed_by (set_null_reviewed_by u r) = None)
  ∧ (BookReview.reviewed_by r ≠ Some u → set_null_reviewed_by u r = r).
Proof. unfold set_null_reviewed_by. case_decide; repeat split; done. Qed.

Lemma reviews_with_null_reviewer_Permutation u reviews :
  reviews_with_null_reviewer u reviews ≡ₚ set_null_reviewed_by u <$> reviews.
Proof.
  unfold reviews_with_null_reviewer.
  induction reviews as [|r l IH]; [done|].
  destruct (set_null_reviewed_by_frame u r) as (_ & _ & _ & _ & Hkeep).
  destruct (decide (BookReview.reviewed_by r = Some u)) as [Heq|Hne].
  - rewrite filter_cons_False by (intros H; by apply H).
    rewrite filter_cons_True by done. rewrite !fmap_cons.
    by rewrite <- Permutation_middle, IH.
  - rewrite filter_cons_True by done. rewrite filter_cons_False by done.
    rewrite fmap_cons, (Hkeep Hne). simpl. by rewrite IH.
Qed.

Lemma User_delete_state reader_on_delete u db :
  (reader_on_delete = PROTECT
   ∧ (∃ r, r ∈ book_records db ∧ BookRecord.reader r = u)
   ∧ User_delete reader_on_delete u db = (inl ProtectedError, db))
  ∨ User_delete reader_on_delete u db
    = (inr tt,
       mkDB (books db)
            (filter (λ r, BookRecord.reader r ≠ u) (book_records db))
            (reviews_with_null_reviewer u (book_reviews db))
            (filter (λ row, User.pk row ≠ u) (users db))
            (filter (λ row, row.1 ≠ u) (favorite_books db))
            (book_seq db) (record_seq db) (review_seq db)).
Proof.
  unfold User_delete, bind, get_db.
  destruct reader_on_delete; [by right|].
  destruct (filter (λ r, BookRecord.reader r = u) (book_records db))
    as [|r rest] eqn:Hrec; [by right|].
  left. split; [reflexivity|]. split; [|reflexivity].
  assert (Hr : r ∈ filter (λ r, BookRecord.reader r = u) (book_records db))
    by (rewrite Hrec; left).
  apply list_elem_of_filter in Hr as [Hu Hin]. by exists r.
Qed.

(** C8: deleting a user keeps every review row: the reviews after the
    deletion are, row for row and in some order, the reviews before it
    with the reviewer of those of the deleted user set to null.  Each
    review is still there with its key, body and book, with a null
    reviewer if the deleted user wrote it and unchanged otherwise; no row
    is added, and no review names the deleted user.  The deletion goes
    through unless the rule of [BookRecord.reader] is [PROTECT] and the
    user has reading records, in which case nothing is changed. *)
Theorem user_delete_sets_reviewer_null (reader_on_delete : OnDelete) (u : Z)
    (db : DB) :
  (reader_on_delete = PROTECT
   ∧ (∃ r, r ∈ book_records db ∧ BookRecord.reader r = u)
   ∧ User_delete reader_on_delete u db = (inl ProtectedError, db))
  ∨ ∃ db',
      User_delete reader_on_delete u db = (inr tt, db')
      ∧ book_reviews db' ≡ₚ set_null_reviewed_by u <$> book_reviews db
      ∧ List.length (book_reviews db') = List.length (book_reviews db)
      ∧ (∀ r, r ∈ book_reviews db →
           ∃ r', r' ∈ book_reviews db'
                 ∧ BookReview.pk r' = BookReview.pk r
                 ∧ BookReview.body r' = BookReview.body r
                 ∧ BookReview.book r' = BookReview.book r
                 ∧ (BookReview.reviewed_by r = Some u →
                    BookReview.reviewed_by r' = None)
                 ∧ (BookReview.reviewed_by r ≠ Some u → r' = r))
      ∧ (∀ r', r' ∈ book_reviews db' →
           ∃ r, r ∈ book_reviews db ∧ r' = set_null_reviewed_by u r)
      ∧ (∀ r', r' ∈ book_reviews db' → BookReview.reviewed_by r' ≠ Some u)
      ∧ books db' = books db.
Proof.
  destruct (User_delete_state reader_on_delete u db) as [Hprotect | Hrun];
    [by left | right].
  eexists. split; [exact Hrun|]. simpl.
  pose proof (reviews_with_null_reviewer_Permutation u (book_reviews db)) as Hperm.
  split; [exact Hperm|]. split; [by rewrite Hperm, length_fmap|].
  split; [|split; [|split; [|done]]].
  - intros r Hin. exists (set_null_reviewed_by u r). split.
    + rewrite Hperm. apply list_elem_of_fmap. by exists r.
    + apply set_null_reviewed_by_frame.
  - intros r'. rewrite Hperm. intros (r & -> & Hin)%list_elem_of_fmap. by exists r.
  - intros r'. rewrite Hperm. intros (r & -> & _)%list_elem_of_fmap.
    unfold set_null_reviewed_by. by case_decide.
Qed.

(** ** Creation: the other outcomes *)


(** X2: Data that fail validation are answered 400 with the errors of the
    serializer on all three creation routes, before the URL or the
    database is looked at: the clauses that catch [IntegrityError] let the
    [ValidationError] through, and nothing is written, not even a key of
    a sequence. *)
Theorem invalid_data_is_answered_400 (self : View) (db : DB) (errors : JSON) :
  (book_run_validation db (body_data (request self)) = inl errors →
     BookViewSet_create self db = (inl (ValidationError errors), db)
     ∧ dispatch (BookViewSet_create self) db = (inr (mkResponse errors 400), db))
  ∧ (record_run_validation db (body_data (request self)) = inl errors →
     BookRecordViewSet_create self db = (inl (ValidationError errors), db)
     ∧ dispatch (BookRecordViewSet_create self) db
       = (inr (mkResponse errors 400), db))
  ∧ (review_run_validation db (body_data (request self)) = inl errors →
     BookReviewListCreateView_dispatch self db = (inr (mkResponse errors 400), db)).
Proof.
  split; [|split]; intros Hinvalid.
  - unfold dispatch, BookViewSet_create, try_except, CreateModelMixin_create,
      bind, get_db.
    by rewrite Hinvalid.
  - unfold dispatch, BookRecordViewSet_create, try_except, CreateModelMixin_create,
      bind, get_db.
    by rewrite Hinvalid.
  - unfold BookReviewListCreateView_dispatch, dispatch,
      BookReviewListCreateView_create, try_except, CreateModelMixin_create,
      bind, get_db.
    by rewrite Hinvalid.
Qed.

(** X3: A record or a review posted under the key of a book that is not
    stored is answered 404: [get_object_or_404] raises before the insert,
    the clause of [BookRecordViewSet.create] does not catch [Http404], and
    the database is left as it was. *)
Theorem create_under_missing_book_is_404 (self : View) (db : DB) (book_pk : Z) :
  kwargs self !! "book_pk" = Some book_pk →
  get_book db book_pk = None →
  (∀ reading_state,
      record_run_validation db (body_data (request self)) = inr reading_state →
      BookRecordViewSet_create self db = (inl Http404, db)
      ∧ dispatch (BookRecordViewSet_create self) db
        = (inr (mkResponse (JObj [("detail", JStr "Not found.")]) 404), db))
  ∧ (∀ body,
      review_run_validation db (body_data (request self)) = inr body →
      BookReviewListCreateView_dispatch self db
      = (inr (mkResponse (JObj [("detail", JStr "Not found.")]) 404), db)).
Proof.
  intros Hkw Hbook. split.
  - intros reading_state Hvalid.
    unfold dispatch, BookRecordViewSet_create, try_except, CreateModelMixin_create,
      bind, get_db.
    rewrite Hvalid.
    unfold BookRecordViewSet_perform_create, bind, kwarg. rewrite Hkw.
    unfold ret, get_object_or_404_Book, bind, get_db. by rewrite Hbook.
  - intros body Hvalid.
    unfold BookReviewListCreateView_dispatch, dispatch,
      BookReviewListCreateView_create, try_except, CreateModelMixin_create,
      bind, get_db.
    rewrite Hvalid.
    unfold BookReviewListCreateView_perform_create, bind, kwarg. rewrite Hkw.
    unfold ret, get_object_or_404_Book, bind, get_db. by rewrite Hbook.
Qed.

Lemma BookRecordViewSet_get_queryset_run self db book_pk :
  kwargs self !! "book_pk" = Some book_pk →
  BookRecordViewSet_get_queryset self db
  = (inr (filter (λ r, BookRecord.reader r = user (request self)
                       ∧ BookRecord.book r = book_pk) (book_records db)), db).
Proof.
  intros Hkw. unfold BookRecordViewSet_get_queryset, bind, kwarg, get_db.
  by rewrite Hkw.
Qed.

Lemma BookRecordViewSet_create_run self db reading_state book_pk book reader :
  record_run_validation db (body_data (request self)) = inr reading_state →
  kwargs self !! "book_pk" = Some book_pk →
  get_book db book_pk = Some book →
  get_user db (user (request self)) = Some reader →
  ¬ record_pk_taken db (record_seq db) →
  ¬ record_unique_violation db (user (request self)) book_pk →
  BookRecordViewSet_create self db
  = (inr (mkResponse
            (JObj [("pk", JInt (record_seq db));
                   ("book", JObj [("pk", JInt (Book.pk book));
                                  ("title", JStr (Book.title book));
                                  ("author", JStr (Book.author book));
                                  ("publication_year",
                                   JInt (Book.publication_year book));
                                  ("featured", JBool (Book.featured book))]);
                   ("reader", JStr (User.username reader));
                   ("reading_state", JStr reading_state)])
            201),
     mkDB (books db)
          (book_records db
             ++ [BookRecord.mk (record_seq db) book_pk (user (request self))
                               reading_state])
          (book_reviews db) (users db) (favorite_books db)
          (book_seq db) (record_seq db + 1) (review_seq db)).
Proof.
  intros Hvalid Hkw Hbook Hreader Hfresh Hfree.
  pose proof (get_book_pk _ _ _ Hbook) as Hpk.
  unfold BookRecordViewSet_create, try_except, CreateModelMixin_create, bind, get_db.
  rewrite Hvalid.
  unfold BookRecordViewSet_perform_create, bind, kwarg. rewrite Hkw.
  unfold ret, get_object_or_404_Book, bind, get_db. rewrite Hbook.
  unfold ret, insert_record, bind, next_record_pk, get_db. simpl.
  rewrite Hpk.
  rewrite decide_False by (intros [H|H]; [exact (Hfresh H) | exact (Hfree H)]).
  simpl.
  unfold serializer_data, BookRecordSerializer, username_slug, BookSerializer.
  simpl. unfold get_book, get_user in *. simpl.
  rewrite Hbook, Hreader. by rewrite Hpk.
Qed.

(** X4: A reading-record creation that passes validation, under the key of a
    stored book for which the requesting user has no record yet, when the
    next key of the sequence is not the key of a stored record, answers
    201; the records are the old rows and a new row with the requesting
    user as reader and the book of the URL as book, whatever the request
    data say, and the response names the reader by username. *)
Theorem record_create_saves_for_requesting_user (self : View) (db : DB)
    (reading_state : string) (book_pk : Z) (book : Book.t) (reader : User.t) :
  record_run_validation db (body_data (request self)) = inr reading_state →
  kwargs self !! "book_pk" = Some book_pk →
  get_book db book_pk = Some book →
  get_user db (user (request self)) = Some reader →
  ¬ record_pk_taken db (record_seq db) →
  ¬ record_unique_violation db (user (request self)) book_pk →
  ∃ d db',
    BookRecordViewSet_create self db = (inr (mkResponse d 201), db')
    ∧ book_records db' ≡ₚ
        book_records db
          ++ [BookRecord.mk (record_seq db) book_pk (user (request self))
                            reading_state]
    ∧ field "reader" d = Some (JStr (User.username reader))
    ∧ field "reading_state" d = Some (JStr reading_state)
    ∧ field "pk" d = Some (JInt (record_seq db))
    ∧ books db' = books db ∧ book_reviews db' = book_reviews db
    ∧ users db' = users db ∧ favorite_books db' = favorite_books db.
Proof.
  intros Hvalid Hkw Hbook Hreader Hfresh Hfree.
  rewrite (BookRecordViewSet_create_run _ _ _ _ _ _
             Hvalid Hkw Hbook Hreader Hfresh Hfree).
  eexists _, _. split; [reflexivity|]. by repeat split.
Qed.

(** X5: After a successful record creation (valid data, stored book, no
    record of the user for it yet, next key not stored) the list of the
    same user under the same book selects the rows it selected before and
    the new record, and the list of any other user or any other book
    selects the rows it selected before. *)
Theorem created_record_is_listed (self : View) (db : DB)
    (reading_state : string) (book_pk : Z) (book : Book.t) (reader : User.t) :
  record_run_validation db (body_data (request self)) = inr reading_state →
  kwargs self !! "book_pk" = Some book_pk →
  get_book db book_pk = Some book →
  get_user db (user (request self)) = Some reader →
  ¬ record_pk_taken db (record_seq db) →
  ¬ record_unique_violation db (user (request self)) book_pk →
  ∃ resp db' queryset,
    BookRecordViewSet_create self db = (inr resp, db')
    ∧ BookRecordViewSet_get_queryset self db = (inr queryset, db)
    ∧ (∃ queryset',
         BookRecordViewSet_get_queryset self db' = (inr queryset', db')
         ∧ queryset' ≡ₚ
             queryset
               ++ [BookRecord.mk (record_seq db) book_pk (user (request self))
                                 reading_state])
    ∧ (∀ other other_pk,
         kwargs other !! "book_pk" = Some other_pk →
         user (request other) ≠ user (request self) ∨ other_pk ≠ book_pk →
         (BookRecordViewSet_get_queryset other db').1
         = (BookRecordViewSet_get_queryset other db).1).
Proof.
  intros Hvalid Hkw Hbook Hreader Hfresh Hfree.
  rewrite (BookRecordViewSet_create_run _ _ _ _ _ _
             Hvalid Hkw Hbook Hreader Hfresh Hfree).
  eexists _, _, _. split; [reflexivity|].
  split; [by apply BookRecordViewSet_get_queryset_run|]. split.
  - eexists. split; [by apply BookRecordViewSet_get_queryset_run|]. simpl.
    rewrite filter_app, filter_cons_True by done. by rewrite filter_nil.
  - intros other other_pk Hkw' Hother.
    rewrite !(BookRecordViewSet_get_queryset_run _ _ _ Hkw'). simpl.
    rewrite filter_app, filter_cons_False, filter_nil, app_nil_r; [done|].
    simpl. intros [Hu Hb]. destruct Hother; congruence.
Qed.

(** X6: After a successful record creation (valid data, stored book, no
    record of the user for it yet, next key not stored) a second creation
    by the same user under the same book is answered 400 with the
    duplicate-record message, whatever valid data it carries, and writes
    no row. *)
Theorem second_record_create_is_400 (self : View) (db : DB)
    (reading_state : string) (book_pk : Z) (book : Book.t) (reader : User.t) :
  record_run_validation db (body_data (request self)) = inr reading_state →
  kwargs self !! "book_pk" = Some book_pk →
  get_book db book_pk = Some book →
  get_user db (user (request self)) = Some reader →
  ¬ record_pk_taken db (record_seq db) →
  ¬ record_unique_violation db (user (request self)) book_pk →
  ∃ resp db',
    BookRecordViewSet_create self db = (inr resp, db')
    ∧ status resp = 201
    ∧ ∀ again reading_state',
        user (request again) = user (request self) →
        kwargs again !! "book_pk" = Some book_pk →
        record_run_validation db' (body_data (request again)) = inr reading_state' →
        ∃ db'',
          BookRecordViewSet_create again db'
          = (inr (mkResponse (JObj [("error", JStr duplicate_record_error)]) 400),
             db'')
          ∧ same_rows db' db''.
Proof.
  intros Hvalid Hkw Hbook Hreader Hfresh Hfree.
  rewrite (BookRecordViewSet_create_run _ _ _ _ _ _
             Hvalid Hkw Hbook Hreader Hfresh Hfree).
  eexists _, _. split; [reflexivity|]. split; [reflexivity|].
  intros again reading_state' Huser Hkw' Hvalid'.
  unfold BookRecordViewSet_create, try_except, CreateModelMixin_create, bind, get_db.
  rewrite Hvalid'.
  unfold BookRecordViewSet_perform_create, bind, kwarg. rewrite Hkw'.
  unfold ret, get_object_or_404_Book, bind, get_db.
  change (get_book (mkDB _ _ _ _ _ _ _ _) book_pk) with (get_book db book_pk).
  rewrite Hbook.
  unfold ret, insert_record, bind, next_record_pk, get_db. simpl.
  rewrite (get_book_pk _ _ _ Hbook), Huser.
  rewrite decide_True.
  - simpl. eexists. split; [reflexivity|]. by repeat split.
  - right. unfold record_unique_violation. simpl.
    apply Exists_app. right. by left.
Qed.

Lemma BookReviewListCreateView_create_run self db body book_pk book reviewer :
  review_run_validation db (body_data (request self)) = inr body →
  kwargs self !! "book_pk" = Some book_pk →
  get_book db book_pk = Some book →
  get_user db (user (request self)) = Some reviewer →
  ¬ review_pk_taken db (review_seq db) →
  ¬ unique_user_review_violation db (Some (user (request self))) book_pk →
  BookReviewListCreateView_dispatch self db
  = (inr (mkResponse
            (JObj [("pk", JInt (review_seq db));
                   ("body", JStr body);
                   ("book", JStr (Book.title book));
                   ("reviewed_by", JStr (User.username reviewer))])
            201),
     mkDB (books db) (book_records db)
          (book_reviews db
             ++ [BookReview.mk (review_seq db) body book_pk
                               (Some (user (request self)))])
          (users db) (favorite_books db)
          (book_seq db) (record_seq db) (review_seq db + 1)).
Proof.
  intros Hvalid Hkw Hbook Hreviewer Hfresh Hfree.
  pose proof (get_book_pk _ _ _ Hbook) as Hpk.
  unfold BookReviewListCreateView_dispatch, dispatch, try_except,
    BookReviewListCreateView_create, CreateModelMixin_create, bind, get_db.
  rewrite Hvalid.
  unfold BookReviewListCreateView_perform_create, bind, kwarg. rewrite Hkw.
  unfold ret, get_object_or_404_Book, bind, get_db. rewrite Hbook.
  unfold ret, insert_review, bind, next_review_pk, get_db. simpl.
  rewrite Hpk.
  rewrite decide_False by (intros [H|H]; [exact (Hfresh H) | exact (Hfree H)]).
  simpl.
  unfold serializer_data, BookReviewSerializer, username_slug.
  simpl. unfold get_book, get_user in *. simpl.
  by rewrite Hbook, Hreviewer.
Qed.

(** X7: A review creation that passes validation, under the key of a stored
    book the requesting user has not reviewed yet, when the next key of
    the sequence is not the key of a stored review, answers 201; the
    reviews are the old rows and a new row with the requesting user as
    reviewer and the book of the URL as book, the response names book and
    reviewer by title and username, and the reviews of the book, which
    its detail representation links, are the old ones and the new row. *)
Theorem review_create_saves_for_requesting_user (self : View) (db : DB)
    (body : string) (book_pk : Z) (book : Book.t) (reviewer : User.t) :
  review_run_validation db (body_data (request self)) = inr body →
  kwargs self !! "book_pk" = Some book_pk →
  get_book db book_pk = Some book →
  get_user db (user (request self)) = Some reviewer →
  ¬ review_pk_taken db (review_seq db) →
  ¬ unique_user_review_violation db (Some (user (request self))) book_pk →
  ∃ d db',
    BookReviewListCreateView_dispatch self db = (inr (mkResponse d 201), db')
    ∧ book_reviews db' ≡ₚ
        book_reviews db
          ++ [BookReview.mk (review_seq db) body book_pk
                            (Some (user (request self)))]
    ∧ reviews_of db' book ≡ₚ
        reviews_of db book
          ++ [BookReview.mk (review_seq db) body book_pk
                            (Some (user (request self)))]
    ∧ field "body" d = Some (JStr body)
    ∧ field "book" d = Some (JStr (Book.title book))
    ∧ field "reviewed_by" d = Some (JStr (User.username reviewer))
    ∧ books db' = books db ∧ book_records db' = book_records db
    ∧ users db' = users db ∧ favorite_books db' = favorite_books db.
Proof.
  intros Hvalid Hkw Hbook Hreviewer Hfresh Hfree.
  rewrite (BookReviewListCreateView_create_run _ _ _ _ _ _
             Hvalid Hkw Hbook Hreviewer Hfresh Hfree).
  eexists _, _. split; [reflexivity|]. split; [reflexivity|]. split.
  - unfold reviews_of. simpl.
    rewrite filter_app, filter_cons_True, filter_nil; [done|].
    simpl. by rewrite (get_book_pk _ _ _ Hbook).
  - by repeat split.
Qed.

Lemma exception_handler_state e db : (exception_handler e db).2 = db.
Proof. by destruct e. Qed.

(** What a review creation can do to the database, whatever its outcome:
    nothing to the rows, or one review appended for the requesting user
    and a stored book the user had not reviewed. *)
Lemma BookReviewListCreateView_dispatch_rows self db :
  books (BookReviewListCreateView_dispatch self db).2 = books db
  ∧ book_records (BookReviewListCreateView_dispatch self db).2 = book_records db
  ∧ users (BookReviewListCreateView_dispatch self db).2 = users db
  ∧ favorite_books (BookReviewListCreateView_dispatch self db).2 = favorite_books db
  ∧ (book_reviews (BookReviewListCreateView_dispatch self db).2 = book_reviews db
     ∨ ∃ r, book_reviews (BookReviewListCreateView_dispatch self db).2
            = (book_reviews db ++ [r])%list
            ∧ BookReview.reviewed_by r = Some (user (request self))
            ∧ is_Some (get_book db (BookReview.book r))
            ∧ ¬ unique_user_review_violation db (BookReview.reviewed_by r)
                                              (BookReview.book r)).
Proof.
  unfold BookReviewListCreateView_dispatch, dispatch, try_except,
    BookReviewListCreateView_create, CreateModelMixin_create, bind, get_db.
  destruct (review_run_validation db (body_data (request self))) as [errors|body];
    [by repeat split; try left|].
  unfold BookReviewListCreateView_perform_create, bind, kwarg.
  destruct (kwargs self !! "book_pk") as [book_pk|]; [|by repeat split; try left].
  unfold ret, get_object_or_404_Book, bind, get_db.
  destruct (get_book db book_pk) as [book|] eqn:Hbook; [|by repeat split; try left].
  pose proof (get_book_pk _ _ _ Hbook) as Hpk.
  unfold ret, insert_review, bind, next_review_pk, get_db. simpl. rewrite Hpk.
  case_decide as Hdup; [by repeat split; try left|].
  apply Decidable.not_or in Hdup as [_ Hfree]. simpl.
  unfold serializer_data.
  match goal with
  | |- context [BookReviewSerializer ?db1 ?r] =>
      destruct (BookReviewSerializer db1 r) as [e|d]
  end.
  - rewrite exception_handler_state. simpl. repeat split; try done.
    right. eexists. split; [reflexivity|]. simpl. by rewrite Hbook.
  - simpl. repeat split; try done.
    right. eexists. split; [reflexivity|]. simpl. by rewrite Hbook.
Qed.

Lemma unique_user_review_holds_app db db' r :
  book_reviews db' = (book_reviews db ++ [r])%list →
  ¬ unique_user_review_violation db (BookReview.reviewed_by r) (BookReview.book r) →
  unique_user_review_holds db → unique_user_review_holds db'.
Proof.
  intros Hrows Hfree Hinv i j r1 r2 u Hi Hj Hu1 Hu2 Hbook.
  rewrite Hrows in Hi, Hj.
  apply lookup_app_Some in Hi as [Hi | [Hi1 Hi2]];
    apply lookup_app_Some in Hj as [Hj | [Hj1 Hj2]].
  - by apply (Hinv i j r1 r2 u).
  - apply list_lookup_singleton_Some in Hj2 as [_ ->].
    exfalso. apply Hfree. rewrite Hu2. simpl.
    apply Exists_exists. exists r1. split; [by eapply list_elem_of_lookup_2|done].
  - apply list_lookup_singleton_Some in Hi2 as [_ ->].
    exfalso. apply Hfree. rewrite Hu1. simpl.
    apply Exists_exists. exists r2. split; [by eapply list_elem_of_lookup_2|done].
  - apply list_lookup_singleton_Some in Hi2 as [Hi2 _].
    apply list_lookup_singleton_Some in Hj2 as [Hj2 _]. lia.
Qed.

(** X8: The review route keeps [unique_user_review]: if no two stored reviews
    share a non-null reviewer and a book, none do after a creation,
    whatever its outcome. *)
Theorem review_create_keeps_unique_user_review (self : View) (db : DB) :
  unique_user_review_holds db →
  unique_user_review_holds (BookReviewListCreateView_dispatch self db).2.
Proof.
  intros Hinv.
  destruct (BookReviewListCreateView_dispatch_rows self db)
    as (_ & _ & _ & _ & [Hsame | (r & Hrows & _ & _ & Hfree)]).
  - unfold unique_user_review_holds. by rewrite Hsame.
  - by apply (unique_user_review_holds_app db _ r).
Qed.

(** ** Referential integrity *)

Lemma find_app_Some {A} (f : A → bool) (l l' : list A) x :
  List.find f l = Some x → List.find f (l ++ l') = Some x.
Proof.
  induction l as [|y l IH]; simpl; [done|]. by destruct (f y).
Qed.

Lemma foreign_keys_valid_rows db db' :
  (∀ pk, is_Some (get_book db pk) → is_Some (get_book db' pk)) →
  (∀ pk, is_Some (get_user db pk) → is_Some (get_user db' pk)) →
  book_records db' = book_records db →
  book_reviews db' = book_reviews db →
  foreign_keys_valid db → foreign_keys_valid db'.
Proof.
  intros Hbooks Husers Hrecords Hreviews [Hrec Hrev].
  unfold foreign_keys_valid. rewrite Hrecords, Hreviews. split.
  - eapply Forall_impl; [exact Hrec|]. intros r [? ?]. auto.
  - eapply Forall_impl; [exact Hrev|]. intros r [? Hu]. split; [auto|].
    destruct (BookReview.reviewed_by r); simpl in *; auto.
Qed.

Lemma get_book_same_books db db' pk :
  books db' = books db → get_book db' pk = get_book db pk.
Proof. intros H. unfold get_book. by rewrite H. Qed.

Lemma get_user_same_users db db' pk :
  users db' = users db → get_user db' pk = get_user db pk.
Proof. intros H. unfold get_user. by rewrite H. Qed.

Lemma BookViewSet_create_rows self db :
  book_records (dispatch (BookViewSet_create self) db).2 = book_records db
  ∧ book_reviews (dispatch (BookViewSet_create self) db).2 = book_reviews db
  ∧ users (dispatch (BookViewSet_create self) db).2 = users db
  ∧ favorite_books (dispatch (BookViewSet_create self) db).2 = favorite_books db
  ∧ (books (dispatch (BookViewSet_create self) db).2 = books db
     ∨ ∃ b, books (dispatch (BookViewSet_create self) db).2 = (books db ++ [b])%list).
Proof.
  unfold dispatch, BookViewSet_create, try_except, CreateModelMixin_create,
    bind, get_db.
  destruct (book_run_validation db (body_data (request self))) as [errors|v];
    [by repeat split; try left|].
  unfold insert_book, bind, next_book_pk, get_db. simpl.
  case_decide as Hdup; [by repeat split; try left|].
  apply Decidable.not_or in Hdup as [_ Hfree]. simpl.
  unfold serializer_data.
  match goal with
  | |- context [BookViewSet_get_serializer_class self ?db1 ?b] =>
      destruct (BookViewSet_serializer_total self db1 b) as (d & -> & _)
  end.
  simpl. repeat split; try done. right. by eexists.
Qed.

Lemma BookRecordViewSet_create_rows self db :
  books (dispatch (BookRecordViewSet_create self) db).2 = books db
  ∧ book_reviews (dispatch (BookRecordViewSet_create self) db).2 = book_reviews db
  ∧ users (dispatch (BookRecordViewSet_create self) db).2 = users db
  ∧ favorite_books (dispatch (BookRecordViewSet_create self) db).2
    = favorite_books db
  ∧ (book_records (dispatch (BookRecordViewSet_create self) db).2 = book_records db
     ∨ ∃ r, book_records (dispatch (BookRecordViewSet_create self) db).2
            = (book_records db ++ [r])%list
            ∧ BookRecord.reader r = user (request self)
            ∧ is_Some (get_book db (BookRecord.book r))
            ∧ ¬ record_unique_violation db (BookRecord.reader r)
                                        (BookRecord.book r)).
Proof.
  unfold dispatch, BookRecordViewSet_create, try_except, CreateModelMixin_create,
    bind, get_db.
  destruct (record_run_validation db (body_data (request self)))
    as [errors|reading_state]; [by repeat split; try left|].
  unfold BookRecordViewSet_perform_create, bind, kwarg.
  destruct (kwargs self !! "book_pk") as [book_pk|]; [|by repeat split; try left].
  unfold ret, get_object_or_404_Book, bind, get_db.
  destruct (get_book db book_pk) as [book|] eqn:Hbook; [|by repeat split; try left].
  pose proof (get_book_pk _ _ _ Hbook) as Hpk.
  unfold ret, insert_record, bind, next_record_pk, get_db. simpl. rewrite Hpk.
  case_decide as Hdup; [by repeat split; try left|].
  apply Decidable.not_or in Hdup as [_ Hfree]. simpl.
  unfold serializer_data.
  match goal with
  | |- context [BookRecordSerializer ?db1 ?r] =>
      destruct (BookRecordSerializer db1 r) as [e|d]
  end.
  - destruct e; simpl; repeat split; try done;
      right; eexists; (split; [reflexivity|]); simpl; by rewrite Hbook.
  - simpl. repeat split; try done.
    right. eexists. split; [reflexivity|]. simpl. by rewrite Hbook.
Qed.

(** X9: The three creation routes keep referential integrity when the
    requesting user is stored: a new record or review points to the book
    [get_object_or_404] found and to the requesting user, and a new book
    leaves every key that resolved resolving to the same row. *)
Theorem creations_keep_foreign_keys (self : View) (db : DB) :
  foreign_keys_valid db →
  is_Some (get_user db (user (request self))) →
  foreign_keys_valid (dispatch (BookViewSet_create self) db).2
  ∧ foreign_keys_valid (dispatch (BookRecordViewSet_create self) db).2
  ∧ foreign_keys_valid (BookReviewListCreateView_dispatch self db).2.
Proof.
  intros Hfk Huser. split; [|split].
  - destruct (BookViewSet_create_rows self db)
      as (Hrecords & Hreviews & Husers & _ & Hbooks).
    apply (foreign_keys_valid_rows db); try done.
    + intros pk [b Hb]. unfold get_book in *.
      destruct Hbooks as [-> | [b' ->]]; [by exists b|].
      exists b. by apply find_app_Some.
    + intros pk. by rewrite (get_user_same_users db _ pk Husers).
  - destruct (BookRecordViewSet_create_rows self db)
      as (Hbooks & Hreviews & Husers & _ & Hrecords).
    set (db' := (dispatch (BookRecordViewSet_create self) db).2) in *.
    destruct Hrecords as [Hsame | (r & Hrows & Hreader & Hbook & _)].
    + apply (foreign_keys_valid_rows db); try done.
      * intros pk. by rewrite (get_book_same_books db db' pk Hbooks).
      * intros pk. by rewrite (get_user_same_users db db' pk Husers).
    + destruct Hfk as [Hrec Hrev]. split.
      * rewrite Hrows. apply Forall_app. split.
        -- eapply Forall_impl; [exact Hrec|]. intros x [? ?].
           by rewrite (get_book_same_books db db' _ Hbooks),
                      (get_user_same_users db db' _ Husers).
        -- apply Forall_singleton.
           by rewrite (get_book_same_books db db' _ Hbooks),
                      (get_user_same_users db db' _ Husers), Hreader.
      * rewrite Hreviews. eapply Forall_impl; [exact Hrev|]. intros x [? Hu].
        rewrite (get_book_same_books db db' _ Hbooks). split; [done|].
        destruct (BookReview.reviewed_by x); simpl in *; [|done].
        by rewrite (get_user_same_users db db' _ Husers).
  - destruct (BookReviewListCreateView_dispatch_rows self db)
      as (Hbooks & Hrecords & Husers & _ & Hreviews).
    set (db' := (BookReviewListCreateView_dispatch self db).2) in *.
    destruct Hreviews as [Hsame | (r & Hrows & Hreviewer & Hbook & _)].
    + apply (foreign_keys_valid_rows db); try done.
      * intros pk. by rewrite (get_book_same_books db db' pk Hbooks).
      * intros pk. by rewrite (get_user_same_users db db' pk Husers).
    + destruct Hfk as [Hrec Hrev]. split.
      * rewrite Hrecords. eapply Forall_impl; [exact Hrec|]. intros x [? ?].
        by rewrite (get_book_same_books db db' _ Hbooks),
                   (get_user_same_users db db' _ Husers).
      * rewrite Hrows. apply Forall_app. split.
        -- eapply Forall_impl; [exact Hrev|]. intros x [? Hu].
           rewrite (get_book_same_books db db' _ Hbooks). split; [done|].
           destruct (BookReview.reviewed_by x); simpl in *; [|done].
           by rewrite (get_user_same_users db db' _ Husers).
        -- apply Forall_singleton.
           rewrite (get_book_same_books db db' _ Hbooks), Hreviewer. simpl.
           by rewrite (get_user_same_users db db' _ Husers).
Qed.




(** ** Detail routes *)

Lemma find_None_intro {A} (f : A → bool) (l : list A) :
  (∀ x, x ∈ l → f x = false) → List.find f l = None.
Proof.
  induction l as [|y l IH]; intros H; simpl; [done|].
  rewrite (H y) by left. apply IH. intros x Hx. apply H. by right.
Qed.

Lemma find_Some_intro {A} (f : A → bool) (l : list A) x :
  x ∈ l → f x = true → ∃ y, List.find f l = Some y ∧ y ∈ l ∧ f y = true.
Proof.
  intros Hin Hx. destruct (List.find f l) as [y|] eqn:Hfind.
  - apply find_some in Hfind as [Hy%list_elem_of_In Hfy]. by exists y.
  - apply list_elem_of_In in Hin.
    pose proof (find_none _ _ Hfind x Hin). congruence.
Qed.

Lemma GenericAPIView_get_object_not_found {A} (get_queryset : ORM (list A))
    (pk_of : A → Z) check pk db queryset :
  get_queryset db = (inr queryset, db) →
  (∀ x, x ∈ queryset → pk_of x ≠ pk) →
  GenericAPIView_get_object get_queryset pk_of check pk db = (inl Http404, db).
Proof.
  intros Hqs Hnone. unfold GenericAPIView_get_object, bind. rewrite Hqs.
  rewrite find_None_intro; [done|].
  intros x Hx. apply Z.eqb_neq. by apply Hnone.
Qed.

Lemma GenericAPIView_get_object_found {A} (get_queryset : ORM (list A))
    (pk_of : A → Z) (check : A → ORM unit) pk db queryset x :
  get_queryset db = (inr queryset, db) →
  x ∈ queryset → pk_of x = pk →
  (∀ obj, obj ∈ queryset → check obj db = (inr tt, db)) →
  ∃ obj, GenericAPIView_get_object get_queryset pk_of check pk db = (inr obj, db)
         ∧ obj ∈ queryset ∧ pk_of obj = pk.
Proof.
  intros Hqs Hin Hpk Hcheck. unfold GenericAPIView_get_object, bind. rewrite Hqs.
  destruct (find_Some_intro (λ y, (pk_of y =? pk)%Z) queryset x Hin)
    as (obj & -> & Hobj & Hobjpk); [by apply Z.eqb_eq|].
  exists obj. rewrite (Hcheck obj Hobj). split; [done|].
  split; [done | by apply Z.eqb_eq].
Qed.

Lemma BookRecordViewSet_get_object_not_found self db book_pk pk :
  kwargs self !! "book_pk" = Some book_pk →
  (∀ r, r ∈ book_records db → BookRecord.pk r = pk →
        BookRecord.reader r ≠ user (request self) ∨ BookRecord.book r ≠ book_pk) →
  BookRecordViewSet_get_object self pk db = (inl Http404, db).
Proof.
  intros Hkw Hforeign.
  apply (GenericAPIView_get_object_not_found _ _ _ _ _ _
           (BookRecordViewSet_get_queryset_run self db book_pk Hkw)).
  intros r [[Hu Hb] Hin]%list_elem_of_filter Hpk.
  destruct (Hforeign r Hin Hpk); contradiction.
Qed.

(** X11: The detail routes of the reading records are scoped like the list: a
    key that belongs to no record of the requesting user under the book
    of the URL (a record of another user, of another book, or none) is
    answered 404 by [retrieve] and by [destroy], whatever the permission
    classes decide, and nothing is deleted. *)
Theorem record_detail_is_scoped (self : View) (db : DB) (book_pk pk : Z) :
  kwargs self !! "book_pk" = Some book_pk →
  (∀ r, r ∈ book_records db → BookRecord.pk r = pk →
        BookRecord.reader r ≠ user (request self) ∨ BookRecord.book r ≠ book_pk) →
  dispatch (BookRecordViewSet_retrieve self pk) db
  = (inr (mkResponse (JObj [("detail", JStr "Not found.")]) 404), db)
  ∧ dispatch (BookRecordViewSet_destroy self pk) db
    = (inr (mkResponse (JObj [("detail", JStr "Not found.")]) 404), db).
Proof.
  intros Hkw Hforeign.
  unfold dispatch, try_except, BookRecordViewSet_retrieve, BookRecordViewSet_destroy,
    RetrieveModelMixin_retrieve, DestroyModelMixin_destroy, bind.
  by rewrite (BookRecordViewSet_get_object_not_found self db book_pk pk Hkw Hforeign).
Qed.

(** X12: [destroy] on a record of the requesting user under the book of the
    URL, with the object permissions granted, answers 204 and deletes the
    rows with that key and no other row; the key is then answered 404. *)
Theorem record_destroy_removes_row (self : View) (db : DB) (book_pk pk : Z)
    (r : BookRecord.t) :
  kwargs self !! "book_pk" = Some book_pk →
  r ∈ book_records db → BookRecord.pk r = pk →
  BookRecord.reader r = user (request self) → BookRecord.book r = book_pk →
  (∀ obj, obj ∈ book_records db →
          record_check_object_permissions self obj db = (inr tt, db)) →
  ∃ db',
    BookRecordViewSet_destroy self pk db = (inr (mkResponse JNull 204), db')
    ∧ book_records db' = filter (λ x, BookRecord.pk x ≠ pk) (book_records db)
    ∧ books db' = books db ∧ book_reviews db' = book_reviews db
    ∧ users db' = users db ∧ favorite_books db' = favorite_books db
    ∧ dispatch (BookRecordViewSet_retrieve self pk) db'
      = (inr (mkResponse (JObj [("detail", JStr "Not found.")]) 404), db')
    ∧ dispatch (BookRecordViewSet_destroy self pk) db'
      = (inr (mkResponse (JObj [("detail", JStr "Not found.")]) 404), db').
Proof.
  intros Hkw Hin Hpk Hreader Hbook Hcheck.
  destruct (GenericAPIView_get_object_found
              (BookRecordViewSet_get_queryset self) BookRecord.pk
              (record_check_object_permissions self) pk db _ r
              (BookRecordViewSet_get_queryset_run self db book_pk Hkw))
    as (obj & Hget & Hobj & Hobjpk).
  { by apply list_elem_of_filter. }
  { exact Hpk. }
  { intros obj [_ Hobj]%list_elem_of_filter. by apply Hcheck. }
  eexists. split.
  { unfold BookRecordViewSet_destroy, DestroyModelMixin_destroy, bind,
      BookRecordViewSet_get_object.
    rewrite Hget.
    unfold BookRecord_delete, bind, get_db, put_db, ret. reflexivity. }
  simpl. rewrite Hobjpk. do 5 (split; [reflexivity|]).
  unfold dispatch, try_except, BookRecordViewSet_retrieve, BookRecordViewSet_destroy,
    RetrieveModelMixin_retrieve, DestroyModelMixin_destroy, bind.
  rewrite (BookRecordViewSet_get_object_not_found self _ book_pk pk Hkw); [done|].
  simpl. intros x [Hx _]%list_elem_of_filter Hxpk. contradiction.
Qed.

(** X13: [BookReviewDetailView] looks a review up among all reviews: [destroy]
    on the key of a stored review, with the object permissions granted,
    answers 204 whoever wrote the review and whatever book it belongs to;
    it deletes the rows with that key and no other row, the book loses the
    review among those its representation links, and the key is then
    answered 404. *)
Theorem review_destroy_removes_row (self : View) (db : DB) (pk : Z)
    (r : BookReview.t) :
  r ∈ book_reviews db → BookReview.pk r = pk →
  (∀ obj, obj ∈ book_reviews db →
          review_check_object_permissions self obj db = (inr tt, db)) →
  ∃ db',
    BookReviewDetailView_destroy self pk db = (inr (mkResponse JNull 204), db')
    ∧ book_reviews db' = filter (λ x, BookReview.pk x ≠ pk) (book_reviews db)
    ∧ (∀ b, reviews_of db' b = filter (λ x, BookReview.pk x ≠ pk) (reviews_of db b))
    ∧ books db' = books db ∧ book_records db' = book_records db
    ∧ users db' = users db ∧ favorite_books db' = favorite_books db
    ∧ dispatch (BookReviewDetailView_retrieve self pk) db'
      = (inr (mkResponse (JObj [("detail", JStr "Not found.")]) 404), db')
    ∧ dispatch (BookReviewDetailView_destroy self pk) db'
      = (inr (mkResponse (JObj [("detail", JStr "Not found.")]) 404), db').
Proof.
  intros Hin Hpk Hcheck.
  destruct (GenericAPIView_get_object_found
              (db <- get_db ;; ret (book_reviews db)) BookReview.pk
              (review_check_object_permissions self) pk db (book_reviews db) r)
    as (obj & Hget & Hobj & Hobjpk); try done.
  eexists. split.
  { unfold BookReviewDetailView_destroy, DestroyModelMixin_destroy, bind,
      BookReviewDetailView_get_object.
    rewrite Hget.
    unfold BookReview_delete, bind, get_db, put_db, ret. reflexivity. }
  simpl. rewrite Hobjpk. split; [reflexivity|]. split.
  { intros b. unfold reviews_of. simpl. rewrite !list_filter_filter.
    apply list_filter_iff. intros x. split; intros [? ?]; by split. }
  do 4 (split; [reflexivity|]).
  unfold dispatch, try_except, BookReviewDetailView_retrieve,
    BookReviewDetailView_destroy, RetrieveModelMixin_retrieve,
    DestroyModelMixin_destroy, bind, BookReviewDetailView_get_object.
  rewrite (GenericAPIView_get_object_not_found _ _ _ pk _
             (filter (λ x, BookReview.pk x ≠ pk) (book_reviews db))); [done|done|].
  intros x [Hx _]%list_elem_of_filter. exact Hx.
Qed.

Lemma BookViewSet_get_queryset_run self db :
  ∃ queryset,
    BookViewSet_get_queryset self db = (inr queryset, db)
    ∧ ∀ b, b ∈ queryset ↔
           b ∈ books db
           ∧ match query_params (request self) !! "search" with
             | Some s => icontains UPPER (Book.title b) s = true
             | None => True
             end.
Proof.
  unfold BookViewSet_get_queryset, bind, get_db, ret.
  destruct (query_params (request self) !! "search") as [s|].
  - eexists. split; [reflexivity|]. intros b.
    rewrite list_elem_of_filter. split; intros [? ?]; by split.
  - eexists. split; [reflexivity|]. intros b.
    unfold Book_objects_order_by_title. rewrite merge_sort_Permutation.
    split; [by intros ? | by intros [? _]].
Qed.

(** X14: [BookViewSet.get_queryset] also serves the detail route, so the
    [search] parameter filters it: with a term that the title of no
    stored book of that key contains when case is ignored, [retrieve]
    answers 404 although the book is stored.  Case is ignored as the
    database does it: [UPPER] is the engine's, and [CaseFold] ties it to
    the relation [same_ignoring_case] on well-encoded text. *)
Theorem book_retrieve_filtered_out_is_404 (self : View) (db : DB) (pk : Z)
    (s : string) :
  CaseFold encoded UPPER same_ignoring_case →
  encoded s →
  query_params (request self) !! "search" = Some s →
  (∀ b, b ∈ books db → Book.pk b = pk →
        encoded (Book.title b)
        ∧ ¬ contains_ignoring_case encoded same_ignoring_case (Book.title b) s) →
  dispatch (BookViewSet_retrieve self pk) db
  = (inr (mkResponse (JObj [("detail", JStr "Not found.")]) 404), db).
Proof.
  intros F Hs Hsearch Hout.
  destruct (BookViewSet_get_queryset_run self db) as (queryset & Hqs & Hmem).
  unfold dispatch, try_except, BookViewSet_retrieve, RetrieveModelMixin_retrieve,
    bind, BookViewSet_get_object.
  rewrite (GenericAPIView_get_object_not_found _ _ _ pk _ queryset Hqs); [done|].
  intros b [Hin Hsel]%Hmem Hpk. rewrite Hsearch in Hsel.
  destruct (Hout b Hin Hpk) as [Htitle Hnot]. apply Hnot.
  by apply (icontains_spec _ _ F Htitle Hs).
Qed.

(** X15: Without a [search] parameter, or with a term its title contains, a
    stored book is found by [retrieve] when the object permissions are
    granted: the answer is 200 with the representation of a stored book of
    that key. *)
Theorem book_retrieve_returns_stored_book (self : View) (db : DB) (pk : Z)
    (book : Book.t) :
  book ∈ books db → Book.pk book = pk →
  match query_params (request self) !! "search" with
  | Some s => icontains UPPER (Book.title book) s = true
  | None => True
  end →
  (∀ obj, obj ∈ books db →
          book_check_object_permissions self obj db = (inr tt, db)) →
  ∃ obj d,
    BookViewSet_retrieve self pk db = (inr (mkResponse d 200), db)
    ∧ obj ∈ books db ∧ Book.pk obj = pk
    ∧ BookViewSet_get_serializer_class self db obj = inr d
    ∧ field "pk" d = Some (JInt pk).
Proof.
  intros Hin Hpk Hsearch Hcheck.
  destruct (BookViewSet_get_queryset_run self db) as (queryset & Hqs & Hmem).
  destruct (GenericAPIView_get_object_found
              (BookViewSet_get_queryset self) Book.pk
              (book_check_object_permissions self) pk db queryset book Hqs)
    as (obj & Hget & Hobj & Hobjpk).
  { by apply Hmem. }
  { exact Hpk. }
  { intros obj [Hobj _]%Hmem. by apply Hcheck. }
  destruct (BookViewSet_serializer_total self db obj) as (d & Hd & Hdpk & _).
  exists obj, d. split.
  { unfold BookViewSet_retrieve, RetrieveModelMixin_retrieve, bind,
      BookViewSet_get_object, serializer_data.
    by rewrite Hget, Hd. }
  apply Hmem in Hobj as [Hobj _]. rewrite Hobjpk in Hdpk. by repeat split.
Qed.

(** ** Favorites: listing after adding *)

Lemma favorite_books_all_app_other db db' u u' k :
  books db' = books db →
  favorite_books db' = (favorite_books db ++ [(u, k)])%list →
  u' ≠ u →
  favorite_books_all db' u' = favorite_books_all db u'.
Proof.
  intros Hbooks Hfav Hne. unfold favorite_books_all. rewrite Hbooks, Hfav.
  clear Hbooks Hfav. induction (books db) as [|b l IH]; [done|].
  rewrite !bind_cons, IH. f_equal.
  rewrite filter_app, filter_cons_False, filter_nil, app_nil_r; [done|].
  intros [= ? _]. congruence.
Qed.

(** X16: After [POST] on the add-favorite route for a stored book, the
    favorites action of the same user lists the representation of the
    book; what the user had among the favorites is still there, and the
    favorites of every other user are the same rows as before. *)
Theorem added_favorite_is_listed (self : View) (db : DB) (book_pk : Z)
    (book : Book.t) :
  kwargs self !! "book_pk" = Some book_pk →
  get_book db book_pk = Some book →
  ∃ resp db' items d,
    CreateFavoriteView_dispatch self db = (inr resp, db')
    ∧ BookViewSet_favorites self db' = (inr (mkResponse (JList items) 200), db')
    ∧ BookViewSet_get_serializer_class self db' book = inr d
    ∧ d ∈ items
    ∧ (∀ b, b ∈ favorite_books_all db (user (request self)) →
            b ∈ favorite_books_all db' (user (request self)))
    ∧ (∀ other, other ≠ user (request self) →
            favorite_books_all db' other = favorite_books_all db other).
Proof.
  intros Hkw Hbook.
  destruct (CreateFavoriteView_post_found self db book_pk book Hkw Hbook)
    as (db' & Hadd & Hpost & _).
  destruct (favorite_books_add_run (user (request self)) book db)
    as (db1 & Hadd' & Hbooks & _ & _ & _ & Hin & Hrows & Hsame & _).
  rewrite Hadd in Hadd'. injection Hadd' as <-.
  destruct (BookViewSet_serializer_many self db'
              (favorite_books_all db' (user (request self))))
    as (items & Hitems & HF).
  destruct (BookViewSet_serializer_total self db' book) as (d & Hd & _).
  eexists _, db', items, d. split.
  { unfold CreateFavoriteView_dispatch, dispatch, try_except.
    rewrite Hpost. unfold BookDetailSerializer. reflexivity. }
  split.
  { unfold BookViewSet_favorites, bind, get_db, serializer_data_many, ret.
    by rewrite Hitems. }
  split; [exact Hd|]. split.
  { apply (Forall2_representation_elem _ _ _ _ d HF). exists book.
    split; [|exact Hd]. apply elem_of_favorite_books_all.
    rewrite Hbooks. split; [by eapply get_book_elem | exact Hin]. }
  split.
  { intros b [Hb Hrow]%elem_of_favorite_books_all.
    apply elem_of_favorite_books_all. rewrite Hbooks. split; [exact Hb|].
    apply Hrows. by left. }
  intros other Hother.
  unfold favorite_books_add, bind, get_db in Hadd.
  case_decide as Hold.
  - by injection Hadd as <-.
  - injection Hadd as <-.
    by apply (favorite_books_all_app_other db _ (user (request self)) other
                (Book.pk book)).
Qed.

(** ** Searching books: edge cases *)

Lemma contains_empty hay : contains "" hay = true.
Proof. by destruct hay. Qed.

(** X17: An empty [search] parameter is a search term: the book list then
    selects every stored book, each as often as it is stored, the engine
    upper-casing the empty text to the empty text. *)
Theorem empty_search_selects_all (self : View) (db : DB) :
  query_params (request self) !! "search" = Some "" →
  UPPER "" = "" →
  ∃ queryset,
    BookViewSet_get_queryset self db = (inr queryset, db)
    ∧ queryset ≡ₚ books db.
Proof.
  intros Hsearch Hempty. unfold BookViewSet_get_queryset, bind, get_db, ret.
  rewrite Hsearch. eexists. split; [reflexivity|].
  induction (books db) as [|b l IH]; [done|].
  rewrite filter_cons_True; [by rewrite IH|].
  unfold icontains. rewrite Hempty. apply contains_empty.
Qed.


(** ** Representations of a book *)

(** X19: The list action represents a book without its reviews; every other
    action of [BookViewSet] adds the field [reviews], with one link per
    row of the review list nested under the book (without a search
    term), in the same order. *)
Theorem book_representation_links_review_list (self lst : View) (db : DB)
    (b : Book.t) :
  kwargs lst !! "book_pk" = Some (Book.pk b) →
  query_params (request lst) !! "search" = None →
  ∃ j queryset,
    BookViewSet_get_serializer_class self db b = inr j
    ∧ BookReviewListCreateView_get_queryset lst db = (inr queryset, db)
    ∧ field "reviews" j =
        if decide (action self = "list") then None
        else Some (JList ((λ r, JStr (reverse "book_reviews-detail"
                                              (BookReview.pk r))) <$> queryset)).
Proof.
  intros Hkw Hsearch.
  unfold BookReviewListCreateView_get_queryset, bind, kwarg, get_db.
  rewrite Hkw. unfold ret. rewrite Hsearch.
  unfold BookViewSet_get_serializer_class.
  case_decide; eexists _, _; (split; [reflexivity|]); by split.
Qed.

(** ** Order of the book list and handlers that only read *)

(** X20: Without a [search] parameter the book list is the table in title
    order, for any collation that compares every two titles. *)
Theorem book_list_without_search_is_sorted (self : View) (db : DB) :
  query_params (request self) !! "search" = None →
  (∀ s t, collate_le s t = true ∨ collate_le t s = true) →
  ∃ queryset,
    BookViewSet_get_queryset self db = (inr queryset, db)
    ∧ Sorted title_le queryset
    ∧ queryset ≡ₚ books db.
Proof.
  intros Hsearch Htotal. exists (Book_objects_order_by_title db).
  split; [|split].
  - unfold BookViewSet_get_queryset, bind, get_db. by rewrite Hsearch.
  - by apply Book_objects_order_by_title_Sorted.
  - apply merge_sort_Permutation.
Qed.

Lemma ListModelMixin_list_state {A} (get_queryset : ORM (list A))
    (s : Serializer A) db :
  (get_queryset db).2 = db → (ListModelMixin_list get_queryset s db).2 = db.
Proof.
  unfold ListModelMixin_list, bind, serializer_data_many, ret.
  destruct (get_queryset db) as [[e|queryset] db']; simpl; [done|].
  intros ->. by destruct (to_representation_many s db queryset).
Qed.

(** X21: The list handlers and the two read-only actions never write: whatever
    they answer or raise, the database is left as it was. *)
Theorem read_handlers_do_not_write (self : View) (db : DB) :
  (BookViewSet_list self db).2 = db
  ∧ (BookViewSet_featured self db).2 = db
  ∧ (BookViewSet_favorites self db).2 = db
  ∧ (BookRecordViewSet_list self db).2 = db
  ∧ (BookReviewListCreateView_list self db).2 = db.
Proof.
  split; [|split; [|split; [|split]]].
  - apply ListModelMixin_list_state.
    by destruct (BookViewSet_get_queryset_run self db) as (? & -> & _).
  - unfold BookViewSet_featured, bind, get_db, serializer_data_many, ret.
    by destruct (to_representation_many _ db _).
  - unfold BookViewSet_favorites, bind, get_db, serializer_data_many, ret.
    by destruct (to_representation_many _ db _).
  - apply ListModelMixin_list_state.
    unfold BookRecordViewSet_get_queryset, bind, get_db, kwarg.
    by destruct (kwargs self !! "book_pk").
  - apply ListModelMixin_list_state.
    unfold BookReviewListCreateView_get_queryset, bind, get_db, kwarg.
    destruct (kwargs self !! "book_pk"); [|done].
    by destruct (query_params (request self) !! "search").
Qed.

End Views.

(** * The handlers on the sample library *)

Example featured_sample :
  (BookViewSet_featured sample_reverse (sample_view 10 [] [] JNull "featured")
                        sample_db).1
  = inr (mkResponse
           (JList [JObj [("pk", JInt 1); ("title", JStr "Dune");
                         ("author", JStr "Frank Herbert");
                         ("publication_year", JInt 1965);
                         ("featured", JBool true);
                         ("reviews", JList [JStr "/book_reviews-detail/1";
                                            JStr "/book_reviews-detail/2"])];
                   JObj [("pk", JInt 3); ("title", JStr "Children of Dune");
                         ("author", JStr "Frank Herbert");
                         ("publication_year", JInt 1976);
                         ("featured", JBool true);
                         ("reviews", JList [])]])
           200).
Proof. vm_compute. reflexivity. Qed.

Example book_search_sample :
  (BookViewSet_list sample_reverse UPPER_C String.leb
                    (sample_view 10 [] [("search", "DUNE")] JNull "list")
                    sample_db).1
  = inr (mkResponse
           (JList [JObj [("pk", JInt 1); ("title", JStr "Dune");
                         ("author", JStr "Frank Herbert");
                         ("publication_year", JInt 1965);
                         ("featured", JBool true)];
                   JObj [("pk", JInt 3); ("title", JStr "Children of Dune");
                         ("author", JStr "Frank Herbert");
                         ("publication_year", JInt 1976);
                         ("featured", JBool true)]])
           200).
Proof. vm_compute. reflexivity. Qed.

Example user_delete_sample :
  book_reviews (User_delete CASCADE 10 sample_db).2
  = [BookReview.mk 2 "Slow start" 1 (Some 11);
     BookReview.mk 1 "A desert classic" 1 None;
     BookReview.mk 3 "Witty" 2 None].
Proof. vm_compute. reflexivity. Qed.

(** C2: on the review route a uniqueness violation is not translated.
    User 10 has reviewed book 1; a second review of book 1 by user 10
    passes validation, violates [unique_user_review] on insert, and the
    [IntegrityError] leaves the view: no response is produced, where the
    book and the reading-record routes answer 400. *)
Theorem duplicate_review_surfaces_IntegrityError :
  unique_user_review_violation sample_db
    (Some (user (request sample_duplicate_review_request))) 1
  ∧ (∃ db',
       BookReviewListCreateView_dispatch (sample_text_validation "body")
         sample_duplicate_review_request sample_db
       = (inl IntegrityError, db')
       ∧ same_rows sample_db db')
  ∧ (BookRecordViewSet_create (sample_text_validation "reading_state")
       sample_duplicate_record_request sample_db).1
    = inr (mkResponse (JObj [("error", JStr duplicate_record_error)]) 400)
  ∧ (BookViewSet_create sample_reverse sample_book_validation
       sample_duplicate_book_request sample_db).1
    = inr (mkResponse (JObj [("error", JStr duplicate_book_error)]) 400).
Proof.
  split; [|split; [|split]].
  - compute_done.
  - eexists. split; [vm_compute; reflexivity|]. by repeat split.
  - vm_compute. reflexivity.
  - vm_compute. reflexivity.
Qed.


Lemma duplicate_creations_return_400_witness :
  (∃ db',
     BookViewSet_create sample_reverse sample_book_validation
       sample_duplicate_book_request sample_db
     = (inr (mkResponse (JObj [("error", JStr duplicate_book_error)]) 400), db')
     ∧ same_rows sample_db db')
  ∧ (∃ db',
       BookRecordViewSet_create (sample_text_validation "reading_state")
         sample_duplicate_record_request sample_db
       = (inr (mkResponse (JObj [("error", JStr duplicate_record_error)]) 400), db')
       ∧ same_rows sample_db db').
Proof.
  destruct (duplicate_creations_return_400 sample_reverse sample_book_validation
              (sample_text_validation "reading_state")) as (Hbook & Hrecord & _).
  split.
  - apply (Hbook sample_duplicate_book_request sample_db
                 (mkBookData "Dune" "Frank Herbert" 1965 false)).
    + reflexivity.
    + compute_done.
  - apply (Hrecord sample_duplicate_record_request sample_db "rd" 1).
    + reflexivity.
    + vm_compute. reflexivity.
    + compute_done.
    + compute_done.
Defined.

Lemma add_favorite_is_idempotent_witness :
  kwargs sample_favorite_request !! "book_pk" = Some 2
  ∧ get_book sample_db 2 = Some (Book.mk 2 "Emma" "Jane Austen" 1815 false)
  ∧ NoDup (favorite_books sample_db)
  ∧ ∃ resp db1,
      CreateFavoriteView_dispatch sample_reverse sample_favorite_request sample_db
      = (inr resp, db1)
      ∧ CreateFavoriteView_dispatch sample_reverse sample_favorite_request db1
        = (inr resp, db1)
      ∧ List.length (filter (λ row, row = (10, 2)) (favorite_books db1)) = 1%nat
      ∧ (∀ row, row ∈ favorite_books db1 ↔
                row ∈ favorite_books sample_db ∨ row = (10, 2))
      ∧ NoDup (favorite_books db1).
Proof.
  assert (Hkw : kwargs sample_favorite_request !! "book_pk" = Some 2)
    by (vm_compute; reflexivity).
  assert (Hbook : get_book sample_db 2
                  = Some (Book.mk 2 "Emma" "Jane Austen" 1815 false))
    by reflexivity.
  assert (Hnd : NoDup (favorite_books sample_db)) by compute_done.
  split; [exact Hkw|]. split; [exact Hbook|]. split; [exact Hnd|].
  exact (add_favorite_is_idempotent sample_reverse sample_favorite_request
           sample_db 2 _ Hkw Hbook Hnd).
Defined.

Lemma add_favorite_status_witness :
  kwargs sample_favorite_request !! "book_pk" = Some 2
  ∧ kwargs sample_missing_favorite_request !! "book_pk" = Some 9
  ∧ (∃ d db',
       CreateFavoriteView_dispatch sample_reverse sample_favorite_request sample_db
       = (inr (mkResponse d 201), db')
       ∧ BookDetailSerializer sample_reverse db'
           (Book.mk 2 "Emma" "Jane Austen" 1815 false) = inr d
       ∧ field "pk" d = Some (JInt 2))
  ∧ CreateFavoriteView_dispatch sample_reverse sample_missing_favorite_request
      sample_db
    = (inr (mkResponse (JObj [("detail", JStr "Not found.")]) 404), sample_db).
Proof.
  assert (Hkw : kwargs sample_favorite_request !! "book_pk" = Some 2)
    by (vm_compute; reflexivity).
  assert (Hkw' : kwargs sample_missing_favorite_request !! "book_pk" = Some 9)
    by (vm_compute; reflexivity).
  split; [exact Hkw|]. split; [exact Hkw'|]. split.
  - exact (add_favorite_status sample_reverse sample_favorite_request
             sample_db 2 Hkw).
  - exact (add_favorite_status sample_reverse sample_missing_favorite_request
             sample_db 9 Hkw').
Defined.

Lemma review_list_of_book_and_search_witness :
  kwargs sample_review_search_request !! "book_pk" = Some 1
  ∧ ∃ queryset,
      BookReviewListCreateView_get_queryset sample_fts_match
        sample_review_search_request sample_db = (inr queryset, sample_db)
      ∧ (∀ r, r ∈ queryset →
              BookReview.book r = 1
              ∧ sample_fts_match (BookReview.body r) "desert" = true)
      ∧ ∃ items,
          BookReviewListCreateView_list sample_fts_match
            sample_review_search_request sample_db
          = (inr (mkResponse (JList items) 200), sample_db).
Proof.
  assert (Hkw : kwargs sample_review_search_request !! "book_pk" = Some 1)
    by (vm_compute; reflexivity).
  split; [exact Hkw|].
  destruct (review_list_of_book_and_search sample_fts_match
              sample_review_search_request sample_db 1 Hkw)
    as (queryset & Hqs & Hmem & _ & Hresp).
  exists queryset. split; [exact Hqs|]. split.
  - intros r (_ & Hbook & Hsearch)%Hmem. split; [exact Hbook | exact Hsearch].
  - apply Hresp. compute_done.
Defined.

Lemma record_list_of_reader_and_book_witness :
  kwargs sample_record_list_request !! "book_pk" = Some 1
  ∧ ∃ queryset,
      BookRecordViewSet_get_queryset sample_record_list_request sample_db
      = (inr queryset, sample_db)
      ∧ (∀ r, r ∈ queryset → BookRecord.reader r = 10 ∧ BookRecord.book r = 1)
      ∧ (BookRecord.mk 2 1 11 "wr" ∉ queryset)
      ∧ ∃ items,
          BookRecordViewSet_list sample_record_list_request sample_db
          = (inr (mkResponse (JList items) 200), sample_db).
Proof.
  assert (Hkw : kwargs sample_record_list_request !! "book_pk" = Some 1)
    by (vm_compute; reflexivity).
  split; [exact Hkw|].
  destruct (record_list_of_reader_and_book sample_record_list_request
              sample_db 1 Hkw)
    as (queryset & Hqs & Hmem & Hother & _ & Hresp).
  exists queryset. split; [exact Hqs|]. split; [|split].
  - intros r (_ & Hreader & Hbook)%Hmem. split; [exact Hreader | exact Hbook].
  - apply Hother. discriminate.
  - apply Hresp. compute_done.
Defined.

(** * The other outcomes on the sample library *)

Lemma sample_db_unique_user_review : unique_user_review_holds sample_db.
Proof.
  intros i j r1 r2 u Hi Hj Hu1 Hu2 Hbook.
  destruct i as [|[|[|i]]]; destruct j as [|[|[|j]]];
    simplify_eq/=; done.
Defined.


Lemma invalid_data_is_answered_400_witness :
  dispatch (BookViewSet_create sample_reverse sample_book_validation
              sample_invalid_request) sample_db
  = (inr (mkResponse (JObj [("non_field_errors", JList [JStr "Invalid data."])])
                     400), sample_db)
  ∧ dispatch (BookRecordViewSet_create (sample_text_validation "reading_state")
                sample_invalid_request) sample_db
    = (inr (mkResponse (JObj [("reading_state",
                               JList [JStr "This field is required."])]) 400),
       sample_db).
Proof.
  split.
  - apply (invalid_data_is_answered_400 sample_reverse sample_book_validation
             (sample_text_validation "reading_state") (sample_text_validation "body")
             sample_invalid_request sample_db). reflexivity.
  - apply (invalid_data_is_answered_400 sample_reverse sample_book_validation
             (sample_text_validation "reading_state") (sample_text_validation "body")
             sample_invalid_request sample_db). reflexivity.
Defined.

Lemma create_under_missing_book_is_404_witness :
  dispatch (BookRecordViewSet_create (sample_text_validation "reading_state")
              sample_missing_book_request) sample_db
  = (inr (mkResponse (JObj [("detail", JStr "Not found.")]) 404), sample_db)
  ∧ BookReviewListCreateView_dispatch (sample_text_validation "body")
      sample_missing_book_request sample_db
    = (inr (mkResponse (JObj [("detail", JStr "Not found.")]) 404), sample_db).
Proof.
  destruct (create_under_missing_book_is_404
              (sample_text_validation "reading_state") (sample_text_validation "body")
              sample_missing_book_request sample_db 9) as [Hrecord Hreview].
  - vm_compute. reflexivity.
  - reflexivity.
  - split.
    + by apply (Hrecord "rd").
    + by apply (Hreview "Lost").
Defined.

Lemma record_create_saves_for_requesting_user_witness :
  ∃ d db',
    BookRecordViewSet_create (sample_text_validation "reading_state")
      sample_new_record_request sample_db = (inr (mkResponse d 201), db')
    ∧ book_records db' ≡ₚ book_records sample_db ++ [BookRecord.mk 4 2 11 "wr"]
    ∧ field "reader" d = Some (JStr "bob").
Proof.
  destruct (record_create_saves_for_requesting_user
              (sample_text_validation "reading_state") sample_new_record_request
              sample_db "wr" 2 (Book.mk 2 "Emma" "Jane Austen" 1815 false)
              (User.mk 11 "bob" "bob@example.org" "pbkdf2$b"))
    as (d & db' & Hcreate & Hrows & Hreader & _).
  - reflexivity.
  - vm_compute. reflexivity.
  - reflexivity.
  - reflexivity.
  - compute_done.
  - compute_done.
  - by exists d, db'.
Defined.

Lemma created_record_is_listed_witness :
  ∃ resp db' queryset,
    BookRecordViewSet_create (sample_text_validation "reading_state")
      sample_new_record_request sample_db = (inr resp, db')
    ∧ (∃ queryset',
         BookRecordViewSet_get_queryset sample_new_record_request db'
         = (inr queryset', db')
         ∧ queryset' ≡ₚ queryset ++ [BookRecord.mk 4 2 11 "wr"])
    ∧ (BookRecordViewSet_get_queryset sample_record_list_request db').1
      = (BookRecordViewSet_get_queryset sample_record_list_request sample_db).1.
Proof.
  destruct (created_record_is_listed
              (sample_text_validation "reading_state") sample_new_record_request
              sample_db "wr" 2 (Book.mk 2 "Emma" "Jane Austen" 1815 false)
              (User.mk 11 "bob" "bob@example.org" "pbkdf2$b"))
    as (resp & db' & queryset & Hcreate & _ & Hlist & Hother).
  - reflexivity.
  - vm_compute. reflexivity.
  - reflexivity.
  - reflexivity.
  - compute_done.
  - compute_done.
  - exists resp, db', queryset. split; [exact Hcreate|]. split; [exact Hlist|].
    apply (Hother sample_record_list_request 1).
    + vm_compute. reflexivity.
    + left. discriminate.
Defined.

Lemma second_record_create_is_400_witness :
  ∃ resp db' db'',
    BookRecordViewSet_create (sample_text_validation "reading_state")
      sample_new_record_request sample_db = (inr resp, db')
    ∧ status resp = 201
    ∧ BookRecordViewSet_create (sample_text_validation "reading_state")
        sample_new_record_request db'
      = (inr (mkResponse (JObj [("error", JStr duplicate_record_error)]) 400), db'').
Proof.
  destruct (second_record_create_is_400
              (sample_text_validation "reading_state") sample_new_record_request
              sample_db "wr" 2 (Book.mk 2 "Emma" "Jane Austen" 1815 false)
              (User.mk 11 "bob" "bob@example.org" "pbkdf2$b"))
    as (resp & db' & Hcreate & Hstatus & Hagain).
  - reflexivity.
  - vm_compute. reflexivity.
  - reflexivity.
  - reflexivity.
  - compute_done.
  - compute_done.
  - destruct (Hagain sample_new_record_request "wr") as (db'' & Hsecond & _).
    + reflexivity.
    + vm_compute. reflexivity.
    + reflexivity.
    + by exists resp, db', db''.
Defined.

Lemma review_create_saves_for_requesting_user_witness :
  ∃ d db',
    BookReviewListCreateView_dispatch (sample_text_validation "body")
      sample_new_review_request sample_db = (inr (mkResponse d 201), db')
    ∧ book_reviews db'
      ≡ₚ book_reviews sample_db ++ [BookReview.mk 4 "Sharp" 2 (Some 11)]
    ∧ field "reviewed_by" d = Some (JStr "bob").
Proof.
  destruct (review_create_saves_for_requesting_user
              (sample_text_validation "body") sample_new_review_request
              sample_db "Sharp" 2 (Book.mk 2 "Emma" "Jane Austen" 1815 false)
              (User.mk 11 "bob" "bob@example.org" "pbkdf2$b"))
    as (d & db' & Hcreate & Hrows & _ & _ & _ & Hreviewer & _).
  - reflexivity.
  - vm_compute. reflexivity.
  - reflexivity.
  - reflexivity.
  - compute_done.
  - compute_done.
  - by exists d, db'.
Defined.

Lemma review_create_keeps_unique_user_review_witness :
  unique_user_review_holds
    (BookReviewListCreateView_dispatch (sample_text_validation "body")
       sample_new_review_request sample_db).2
  ∧ unique_user_review_holds
      (BookReviewListCreateView_dispatch (sample_text_validation "body")
         sample_duplicate_review_request sample_db).2.
Proof.
  split; apply review_create_keeps_unique_user_review;
    exact sample_db_unique_user_review.
Defined.

Lemma creations_keep_foreign_keys_witness :
  foreign_keys_valid
    (dispatch (BookViewSet_create sample_reverse sample_book_validation
                 sample_new_record_request) sample_db).2
  ∧ foreign_keys_valid
      (dispatch (BookRecordViewSet_create (sample_text_validation "reading_state")
                   sample_new_record_request) sample_db).2
  ∧ foreign_keys_valid
      (BookReviewListCreateView_dispatch (sample_text_validation "body")
         sample_new_record_request sample_db).2.
Proof.
  apply creations_keep_foreign_keys.
  - compute_done.
  - compute_done.
Defined.


Lemma record_detail_is_scoped_witness :
  BookRecord.mk 2 1 11 "wr" ∈ book_records sample_db
  ∧ dispatch (BookRecordViewSet_retrieve sample_allow sample_record_list_request 2)
             sample_db
    = (inr (mkResponse (JObj [("detail", JStr "Not found.")]) 404), sample_db)
  ∧ dispatch (BookRecordViewSet_destroy sample_allow sample_record_list_request 2)
             sample_db
    = (inr (mkResponse (JObj [("detail", JStr "Not found.")]) 404), sample_db).
Proof.
  split; [apply list_elem_of_In; simpl; auto|].
  apply (record_detail_is_scoped sample_allow sample_record_list_request
           sample_db 1 2).
  - vm_compute. reflexivity.
  - intros r Hin Hpk. apply list_elem_of_In in Hin. simpl in Hin.
    destruct Hin as [<- | [<- | [<- | []]]]; simpl in Hpk;
      [discriminate | left; discriminate | discriminate].
Defined.

Lemma record_destroy_removes_row_witness :
  ∃ db',
    BookRecordViewSet_destroy sample_allow sample_record_list_request 1 sample_db
    = (inr (mkResponse JNull 204), db')
    ∧ book_records db' = [BookRecord.mk 2 1 11 "wr"; BookRecord.mk 3 2 10 "rg"]
    ∧ dispatch (BookRecordViewSet_retrieve sample_allow sample_record_list_request 1)
               db'
      = (inr (mkResponse (JObj [("detail", JStr "Not found.")]) 404), db').
Proof.
  destruct (record_destroy_removes_row sample_allow sample_record_list_request
              sample_db 1 1 (BookRecord.mk 1 1 10 "rd"))
    as (db' & Hdestroy & Hrows & _ & _ & _ & _ & Hretrieve & _).
  - vm_compute. reflexivity.
  - apply list_elem_of_In. simpl. auto.
  - reflexivity.
  - reflexivity.
  - reflexivity.
  - reflexivity.
  - exists db'. split; [exact Hdestroy|]. split; [exact Hrows | exact Hretrieve].
Defined.

Lemma review_destroy_removes_row_witness :
  ∃ db',
    BookReviewDetailView_destroy sample_allow sample_record_list_request 2 sample_db
    = (inr (mkResponse JNull 204), db')
    ∧ book_reviews db'
      = [BookReview.mk 1 "A desert classic" 1 (Some 10);
         BookReview.mk 3 "Witty" 2 (Some 10)]
    ∧ dispatch (BookReviewDetailView_retrieve sample_allow
                  sample_record_list_request 2) db'
      = (inr (mkResponse (JObj [("detail", JStr "Not found.")]) 404), db').
Proof.
  destruct (review_destroy_removes_row sample_allow sample_record_list_request
              sample_db 2 (BookReview.mk 2 "Slow start" 1 (Some 11)))
    as (db' & Hdestroy & Hrows & _ & _ & _ & _ & _ & Hretrieve & _).
  - apply list_elem_of_In. simpl. auto.
  - reflexivity.
  - reflexivity.
  - exists db'. split; [exact Hdestroy|]. split; [exact Hrows | exact Hretrieve].
Defined.

Lemma book_retrieve_filtered_out_is_404_witness :
  is_Some (get_book sample_db 1)
  ∧ dispatch (BookViewSet_retrieve sample_reverse UPPER_C String.leb sample_allow
                sample_book_search_request 1) sample_db
    = (inr (mkResponse (JObj [("detail", JStr "Not found.")]) 404), sample_db).
Proof.
  split; [compute_done|].
  apply (book_retrieve_filtered_out_is_404 sample_reverse UPPER_C encoded_C
           eq_ignoring_case_C String.leb sample_allow
           sample_book_search_request sample_db 1 "emma" UPPER_C_CaseFold).
  - exact I.
  - vm_compute. reflexivity.
  - intros b Hin Hpk. split; [exact I|].
    intros Hsel%(icontains_spec UPPER_C encoded_C eq_ignoring_case_C _ _
                   UPPER_C_CaseFold I I).
    apply list_elem_of_In in Hin. simpl in Hin.
    destruct Hin as [<- | [<- | [<- | []]]]; simpl in Hpk;
      [vm_compute in Hsel | |]; discriminate.
Defined.

Lemma book_retrieve_returns_stored_book_witness :
  ∃ d,
    BookViewSet_retrieve sample_reverse UPPER_C String.leb sample_allow
      sample_book_search_request 2 sample_db
    = (inr (mkResponse d 200), sample_db)
    ∧ field "pk" d = Some (JInt 2).
Proof.
  destruct (book_retrieve_returns_stored_book sample_reverse UPPER_C String.leb sample_allow
              sample_book_search_request sample_db 2
              (Book.mk 2 "Emma" "Jane Austen" 1815 false))
    as (obj & d & Hretrieve & _ & _ & _ & Hpk).
  - apply list_elem_of_In. simpl. auto.
  - reflexivity.
  - vm_compute. reflexivity.
  - reflexivity.
  - by exists d.
Defined.

Lemma added_favorite_is_listed_witness :
  ∃ resp db' items d,
    CreateFavoriteView_dispatch sample_reverse sample_favorite_request sample_db
    = (inr resp, db')
    ∧ BookViewSet_favorites sample_reverse sample_favorite_request db'
      = (inr (mkResponse (JList items) 200), db')
    ∧ field "title" d = Some (JStr "Emma")
    ∧ d ∈ items
    ∧ favorite_books_all db' 11 = favorite_books_all sample_db 11.
Proof.
  destruct (added_favorite_is_listed sample_reverse sample_favorite_request
              sample_db 2 (Book.mk 2 "Emma" "Jane Austen" 1815 false))
    as (resp & db' & items & d & Hpost & Hlist & Hd & Hin & _ & Hother).
  - vm_compute. reflexivity.
  - reflexivity.
  - exists resp, db', items, d. split; [exact Hpost|]. split; [exact Hlist|].
    split.
    + destruct (BookViewSet_serializer_total sample_reverse sample_favorite_request
                  db' (Book.mk 2 "Emma" "Jane Austen" 1815 false))
        as (d' & Hd' & _ & Htitle & _).
      rewrite Hd in Hd'. injection Hd' as <-. exact Htitle.
    + split; [exact Hin|]. apply Hother. discriminate.
Defined.

Lemma empty_search_selects_all_witness :
  ∃ queryset,
    BookViewSet_get_queryset UPPER_C String.leb sample_empty_search_request sample_db
    = (inr queryset, sample_db)
    ∧ queryset ≡ₚ books sample_db.
Proof.
  apply empty_search_selects_all.
  - vm_compute. reflexivity.
  - reflexivity.
Defined.


Lemma book_representation_links_review_list_witness :
  ∃ j queryset,
    BookViewSet_get_serializer_class sample_reverse sample_book_search_request
      sample_db (Book.mk 1 "Dune" "Frank Herbert" 1965 true) = inr j
    ∧ BookReviewListCreateView_get_queryset sample_fts_match
        sample_record_list_request sample_db = (inr queryset, sample_db)
    ∧ field "reviews" j
      = Some (JList ((λ r, JStr (sample_reverse "book_reviews-detail"
                                                (BookReview.pk r))) <$> queryset)).
Proof.
  apply (book_representation_links_review_list sample_reverse sample_fts_match
           sample_book_search_request sample_record_list_request sample_db
           (Book.mk 1 "Dune" "Frank Herbert" 1965 true)).
  - vm_compute. reflexivity.
  - vm_compute. reflexivity.
Defined.

Lemma book_list_without_search_is_sorted_witness :
  ∃ queryset,
    BookViewSet_get_queryset UPPER_C String.leb sample_record_list_request sample_db
    = (inr queryset, sample_db)
    ∧ Sorted (title_le String.leb) queryset
    ∧ queryset ≡ₚ books sample_db.
Proof.
  apply book_list_without_search_is_sorted.
  - vm_compute. reflexivity.
  - apply String.leb_total.
Defined.
